(** * UVZ server: sanitizer, search aggregation and the nine pipeline operations

    A shallow embedding of [uvz_server.py].

    Strings.  A Python [str] is modelled by [string]; an [ascii] stands for the
    code point of the same number, so the development covers every [str] whose
    code points lie in U+0000..U+00FF.  The character tables of the regex
    engine ([\w], [\s]) and of [str.strip], [str.split], [int] and [repr] are
    the interpreter's tables on that range.

    Effects.  The two collaborators, the search endpoint and the generative
    backend, are fields of a [World]; every call made to either of them is
    appended to a trace, and an operation is a function from the trace so
    far to an outcome and the extended trace. *)

From Stdlib Require Import String Ascii List ZArith Lia Bool DecimalString.
Import ListNotations.
Open Scope string_scope.

(* ===================================================================== *)
(** ** Python strings *)
(* ===================================================================== *)

Module PyStr.

Definition code (c : ascii) : N := N_of_ascii c.

Definition in_range (lo hi : N) (c : ascii) : bool :=
  ((lo <=? code c) && (code c <=? hi))%N.

Definition is_code (n : N) (c : ascii) : bool := (code c =? n)%N.

(** [str.isspace] for one character, which is also the regex class [\s]:
    TAB..CR, FS..US, space, NEL and NBSP. *)
Definition isspace (c : ascii) : bool :=
  in_range 9 13 c || in_range 28 32 c || is_code 133 c || is_code 160 c.

(** [0-9A-Za-z]. *)
Definition is_ascii_alnum (c : ascii) : bool :=
  in_range 48 57 c || in_range 65 90 c || in_range 97 122 c.

(** [str.isalnum] for one character: alphabetic, decimal, digit or numeric.
    Beyond ASCII this adds the ordinal indicators, the micro sign, the
    superscript digits, the vulgar fractions and the accented letters. *)
Definition isalnum (c : ascii) : bool :=
  is_ascii_alnum c
  || is_code 170 c || is_code 178 c || is_code 179 c || is_code 181 c
  || is_code 185 c || is_code 186 c || in_range 188 190 c
  || in_range 192 214 c || in_range 216 246 c || in_range 248 255 c.

Definition is_ascii (c : ascii) : bool := (code c <? 128)%N.

Definition nl : string := String (ascii_of_nat 10) EmptyString.
Definition dquote : ascii := ascii_of_nat 34.
Definition squote : ascii := ascii_of_nat 39.
Definition backslash : ascii := ascii_of_nat 92.

Fixpoint forallb_str (p : ascii -> bool) (s : string) : bool :=
  match s with
  | EmptyString => true
  | String c r => p c && forallb_str p r
  end.

Fixpoint existsb_str (p : ascii -> bool) (s : string) : bool :=
  match s with
  | EmptyString => false
  | String c r => p c || existsb_str p r
  end.

(** Truthiness of a string: [bool(s)]. *)
Definition truthy (s : string) : bool :=
  match s with EmptyString => false | String _ _ => true end.

(** [s.lstrip()], [s.rstrip()], [s.strip()] with no argument. *)
Fixpoint lstrip (s : string) : string :=
  match s with
  | EmptyString => EmptyString
  | String c r => if isspace c then lstrip r else s
  end.

Fixpoint rstrip (s : string) : string :=
  match s with
  | EmptyString => EmptyString
  | String c r =>
      match rstrip r with
      | EmptyString => if isspace c then EmptyString else String c EmptyString
      | r' => String c r'
      end
  end.

Definition strip (s : string) : string := rstrip (lstrip s).

(** [len(s.split())]: the number of maximal runs of non-whitespace. *)
Fixpoint count_words (in_word : bool) (s : string) : nat :=
  match s with
  | EmptyString => 0
  | String c r =>
      if isspace c then count_words false r
      else (if in_word then 0 else 1) + count_words true r
  end.

Definition split_len (s : string) : nat := count_words false s.

(** [str(n)] for an [int]. *)
Definition str_int (z : Z) : string := NilZero.string_of_int (Z.to_int z).
Definition str_nat (n : nat) : string := str_int (Z.of_nat n).

(** [sep.join(parts)]. *)
Definition join (sep : string) (parts : list string) : string :=
  String.concat sep parts.

(** [l[:n]] for a list: a negative bound counts from the end. *)
Definition slice_to {A : Type} (n : Z) (l : list A) : list A :=
  if (n <? 0)%Z then firstn (length l - Z.to_nat (- n)) l
  else firstn (Z.to_nat n) l.

(** [repr(s)]: quoted with ['] unless the text holds a ['] and no double
    quote; backslash, the quote and the unprintable characters escaped. *)
Definition hex_digit (n : N) : ascii :=
  if (n <? 10)%N then ascii_of_N (48 + n) else ascii_of_N (87 + n).

Definition printable (c : ascii) : bool :=
  negb (in_range 0 31 c || in_range 127 160 c || is_code 173 c).

Definition repr_char (quote c : ascii) : string :=
  if Ascii.eqb c quote || Ascii.eqb c backslash
  then String backslash (String c EmptyString)
  else if is_code 9 c then String backslash "t"
  else if is_code 10 c then String backslash "n"
  else if is_code 13 c then String backslash "r"
  else if printable c then String c EmptyString
  else String backslash
         (String "x" (String (hex_digit (code c / 16))
                        (String (hex_digit (code c mod 16)) EmptyString))).

Fixpoint repr_body (quote : ascii) (s : string) : string :=
  match s with
  | EmptyString => EmptyString
  | String c r => repr_char quote c ++ repr_body quote r
  end.

Definition repr (s : string) : string :=
  let quote :=
    if existsb_str (Ascii.eqb squote) s && negb (existsb_str (Ascii.eqb dquote) s)
    then dquote else squote in
  String quote (repr_body quote s ++ String quote EmptyString).

End PyStr.

Import PyStr.

(* ===================================================================== *)
(** ** Exceptions *)
(* ===================================================================== *)

(** The exception classes the program can meet, each with [str(e)]. *)
Inductive exn : Type :=
| ValueError (msg : string)
| TransportError (msg : string)
| TimeoutException (msg : string)
| HTTPStatusError (status_code : Z) (msg : string)
| ParserError (msg : string)
| BackendError (msg : string).

Definition str_exn (e : exn) : string :=
  match e with
  | ValueError m | TransportError m | TimeoutException m
  | HTTPStatusError _ m | ParserError m | BackendError m => m
  end.

Inductive outcome (A : Type) : Type :=
| Return (a : A)
| Raise (e : exn).
Arguments Return {A} a.
Arguments Raise {A} e.

(* ===================================================================== *)
(** ** [int(s)] *)
(* ===================================================================== *)

Module PyInt.

(** Whitespace skipped by [int]: the C [isspace] set, plus NEL and NBSP,
    which the conversion first rewrites to a space. *)
Definition int_isspace (c : ascii) : bool :=
  in_range 9 13 c || is_code 32 c || is_code 133 c || is_code 160 c.

Definition is_digit (c : ascii) : bool := in_range 48 57 c.
Definition digit_value (c : ascii) : Z := Z.of_N (code c) - 48.

Fixpoint skip_spaces (s : string) : string :=
  match s with
  | EmptyString => EmptyString
  | String c r => if int_isspace c then skip_spaces r else s
  end.

(** The run of digits and single underscores: the value, the number of
    digits and the rest of the text; [None] on a doubled or a trailing
    underscore. *)
Fixpoint scan_digits (prev_underscore : bool) (value : Z) (digits : N)
    (s : string) : option (Z * N * string) :=
  match s with
  | EmptyString =>
      if prev_underscore then None else Some (value, digits, s)
  | String c r =>
      if is_digit c
      then scan_digits false (10 * value + digit_value c) (digits + 1) r
      else if Ascii.eqb c "_"
      then if prev_underscore then None else scan_digits true value digits r
      else if prev_underscore then None else Some (value, digits, s)
  end.

(** [sys.get_int_max_str_digits()], at its default. *)
Definition int_max_str_digits : N := 4300.

Definition invalid_literal (s : string) : exn :=
  ValueError ("invalid literal for int() with base 10: "
              ++ substring 0 200 (repr s)).

Definition exceeds_limit (digits : N) : exn :=
  ValueError ("Exceeds the limit (" ++ str_int (Z.of_N int_max_str_digits)
              ++ " digits) for integer string conversion: value has "
              ++ str_int (Z.of_N digits)
              ++ " digits; use sys.set_int_max_str_digits() to increase the limit").

Definition int (s : string) : outcome Z :=
  let s1 := skip_spaces s in
  let '(sign, s2) :=
    match s1 with
    | String "+" r => (1%Z, r)
    | String "-" r => ((-1)%Z, r)
    | _ => (1%Z, s1)
    end in
  match s2 with
  | String "_" _ => Raise (invalid_literal s)
  | _ =>
      match scan_digits false 0 0 s2 with
      | None => Raise (invalid_literal s)
      | Some (value, digits, rest) =>
          if (digits =? 0)%N then Raise (invalid_literal s)
          else if (int_max_str_digits <? digits)%N
          then Raise (exceeds_limit digits)
          else match skip_spaces rest with
               | EmptyString => Return (sign * value)%Z
               | String _ _ => Raise (invalid_literal s)
               end
      end
  end.

End PyInt.

(* ===================================================================== *)
(** ** The regex of the sanitizer *)
(* ===================================================================== *)

Module Re.

(** The members of a bracketed character class. *)
Inductive class_item : Type :=
| Word                  (* \w *)
| Space                 (* \s *)
| Lit (c : ascii).      (* a literal or escaped character *)

Record char_class : Type := mk_class {
  negated : bool;       (* a leading ^ *)
  items : list class_item
}.

(** [\w] on a [str] pattern: alphanumeric in the Unicode sense, or [_]. *)
Definition is_word (c : ascii) : bool := isalnum c || Ascii.eqb c "_".

Definition item_matches (c : ascii) (i : class_item) : bool :=
  match i with
  | Word => is_word c
  | Space => isspace c
  | Lit d => Ascii.eqb c d
  end.

Definition class_matches (cls : char_class) (c : ascii) : bool :=
  xorb (negated cls) (existsb (item_matches c) (items cls)).

(** [re.sub(cls, repl, text)] for a pattern that is one character class:
    every matching character is replaced by [repl]. *)
Fixpoint sub (cls : char_class) (repl text : string) : string :=
  match text with
  | EmptyString => EmptyString
  | String c r =>
      if class_matches cls c then repl ++ sub cls repl r
      else String c (sub cls repl r)
  end.

End Re.

(** [re.sub(r'[^\w\s\-,.]', '', text)] *)
Definition sanitize_pattern : Re.char_class :=
  Re.mk_class true [Re.Word; Re.Space; Re.Lit "-"; Re.Lit ","; Re.Lit "."].

Definition sanitize_input (text : string) : string :=
  Re.sub sanitize_pattern "" text.

(** The characters the sanitizer keeps: those the negated class rejects. *)
Definition kept (c : ascii) : bool := negb (Re.class_matches sanitize_pattern c).

(** The set the specification writes out, [A-Za-z0-9_\s\-,.]. *)
Definition in_spec_set (c : ascii) : bool :=
  is_ascii_alnum c || Ascii.eqb c "_" || isspace c
  || Ascii.eqb c "-" || Ascii.eqb c "," || Ascii.eqb c ".".

(** The set the pattern keeps, [\w\s\-,.] with the engine's [\w]. *)
Definition in_pattern_set (c : ascii) : bool :=
  Re.is_word c || isspace c
  || Ascii.eqb c "-" || Ascii.eqb c "," || Ascii.eqb c ".".

Definition chars (s : string) : list ascii := list_ascii_of_string s.

Definition e_acute : ascii := ascii_of_nat 233.

(* ===================================================================== *)
(** ** Collaborators and effects *)
(* ===================================================================== *)

(** A call to one of the two collaborators. *)
Inductive Event : Type :=
| HttpGet (url : string)              (* client.get(url, ...) *)
| GenerateContent (prompt : string).  (* model.generate_content(prompt) *)

Definition trace : Type := list Event.

(** What [client.get] hands back when it does not raise. [status_error] is
    the text of the [HTTPStatusError] that [raise_for_status] builds for it. *)
Record response : Type := mk_response {
  status_code : Z;
  status_error : string;
  text : string
}.

(** [<a>] elements found inside a result block. *)
Record anchor : Type := mk_anchor {
  get_text : string;         (* get_text(strip=True) *)
  href : option string       (* the href attribute, when present *)
}.

(** A [<div class="result">] block: [find('a', class_='result__a')] and
    [find('a', class_='result__snippet')]. *)
Record result_div : Type := mk_div {
  title_elem : option anchor;
  snippet_elem : option anchor
}.

(** The process-wide handle and the outside world.  Each collaborator sees
    the calls made so far, so its answers may change from call to call.
    - [model]: [None] when GEMINI_API_KEY is unset; otherwise
      [generate_content(prompt).text], which may raise;
    - [http_get]: the GET with its 15 s timeout, raising on a transport
      error or a timeout;
    - [find_all_result]: [BeautifulSoup(text, 'html.parser')] and the
      [div.result] blocks of the document, in document order. *)
Record World : Type := mk_world {
  model : option (trace -> string -> outcome string);
  http_get : trace -> string -> outcome response;
  find_all_result : string -> outcome (list result_div)
}.

Definition configured (w : World) : bool :=
  match model w with Some _ => true | None => false end.

(** Computations: the trace so far in, an outcome and the trace out. *)
Definition M (A : Type) : Type := trace -> outcome A * trace.

Definition ret {A : Type} (a : A) : M A := fun tr => (Return a, tr).
Definition raise {A : Type} (e : exn) : M A := fun tr => (Raise e, tr).
Definition lift {A : Type} (o : outcome A) : M A := fun tr => (o, tr).

Definition bind {A B : Type} (m : M A) (k : A -> M B) : M B :=
  fun tr =>
    match m tr with
    | (Return a, tr') => k a tr'
    | (Raise e, tr') => (Raise e, tr')
    end.

(** [try: body / except Exception as e: handler e] *)
Definition try_except {A : Type} (body : M A) (handler : exn -> M A) : M A :=
  fun tr =>
    match body tr with
    | (Return a, tr') => (Return a, tr')
    | (Raise e, tr') => handler e tr'
    end.

Declare Scope py_scope.
Delimit Scope py_scope with py.
Notation "x <- m ;; k" := (bind m (fun x => k))
  (at level 61, m at next level, right associativity) : py_scope.
Open Scope py_scope.

(* ===================================================================== *)
(** ** Search *)
(* ===================================================================== *)

Record SearchResult : Type := mk_result {
  title : string;
  link : string;
  snippet : string
}.

(** The text [json.dumps] produces, kept as the value it denotes:
    [json.loads (json.dumps v) = v] on lists of string records. *)
Inductive json_text : Type := JsonText (v : list SearchResult).

Definition json_dumps (v : list SearchResult) : json_text := JsonText v.
Definition json_loads (j : json_text) : list SearchResult :=
  match j with JsonText v => v end.

Definition search_url (query : string) : string :=
  "https://html.duckduckgo.com/html/?q=" ++ query.

Definition client_get (w : World) (url : string) : M response :=
  fun tr => (http_get w tr url, (tr ++ [HttpGet url])%list).

Definition is_success (r : response) : bool :=
  ((200 <=? status_code r) && (status_code r <=? 299))%Z.

Definition raise_for_status (r : response) : M unit :=
  if is_success r then ret tt
  else raise (HTTPStatusError (status_code r) (status_error r)).

(** [soup.find_all('div', class_='result', limit=...)] *)
Definition find_all (w : World) (markup : string) (limit : nat)
  : M (list result_div) :=
  divs <- lift (find_all_result w markup) ;;
  ret (firstn limit divs).

(** The loop over the blocks: one record per block that has a title. *)
Fixpoint collect_results (divs : list result_div) : list SearchResult :=
  match divs with
  | [] => []
  | d :: rest =>
      match title_elem d with
      | Some t =>
          mk_result (get_text t)
                    (match href t with Some h => h | None => "" end)
                    (match snippet_elem d with
                     | Some s => get_text s
                     | None => ""
                     end)
          :: collect_results rest
      | None => collect_results rest
      end
  end.

Definition web_search_free (w : World) (query : string) : M json_text :=
  try_except
    (let url := search_url query in
     resp <- client_get w url ;;
     _ <- raise_for_status resp ;;
     divs <- find_all w (text resp) 10 ;;
     ret (json_dumps (collect_results divs)))
    (fun e => ret (json_dumps [])).

(* ===================================================================== *)
(** ** Backend adapter *)
(* ===================================================================== *)

Definition not_configured : string := "Error: Gemini API key not configured".

Definition generate_content (m : trace -> string -> outcome string)
    (prompt : string) : M string :=
  fun tr => (m tr prompt, (tr ++ [GenerateContent prompt])%list).

Definition gemini_analyze (w : World) (prompt : string) : M string :=
  match model w with
  | None => ret not_configured
  | Some m =>
      try_except (generate_content m prompt)
                 (fun e => ret ("Error: " ++ str_exn e))
  end.

(** [except Exception as e: return f"Error: {str(e)}"] *)
Definition error_string (e : exn) : M string := ret ("Error: " ++ str_exn e).

(** [int(field) if field.strip() else default] *)
Definition int_or_default (field : string) (default : Z) : outcome Z :=
  if truthy (strip field) then PyInt.int field else Return default.

Definition int_or (field : string) (default : Z) : M Z :=
  lift (int_or_default field default).

(** [enumerate(l)] *)
Fixpoint enumerate_from {A : Type} (i : nat) (l : list A) : list (nat * A) :=
  match l with
  | [] => []
  | x :: r => (i, x) :: enumerate_from (S i) r
  end.
Definition enumerate {A : Type} (l : list A) : list (nat * A) :=
  enumerate_from 0 l.

(** ["{i+1}. {title}\n{snippet}\n{link}"] joined by blank lines *)
Definition source_lines (l : list SearchResult) : string :=
  join (nl ++ nl)
    (map (fun ir => str_nat (fst ir + 1) ++ ". " ++ title (snd ir) ++ nl
                    ++ snippet (snd ir) ++ nl ++ link (snd ir))
         (enumerate l)).

(** ["{i+1}. {title}\n{snippet}"] joined by blank lines *)
Definition signal_lines (l : list SearchResult) : string :=
  join (nl ++ nl)
    (map (fun ir => str_nat (fst ir + 1) ++ ". " ++ title (snd ir) ++ nl
                    ++ snippet (snd ir))
         (enumerate l)).

(* ===================================================================== *)
(** ** Prompt templates *)
(* ===================================================================== *)

(** The f-strings handed to the backend, as functions of their slots. *)

Definition identify_industry_niches_prompt (industry_clean : string)
    (depth_int : Z) : string :=
  "Analyze the " ++ industry_clean ++ " industry and identify "
  ++ str_int depth_int
  ++ " highly specific niches. For each provide: 1. Niche Name 2. Market Size 3. Unique Value Zone (UVZ) 4. Target Audience 5. Differentiation 6. Monetization Potential. Format as structured markdown.".

Definition drill_uvz_prompt (niche_clean focus_clean : string) : string :=
  "Deep UVZ analysis for niche: " ++ niche_clean ++ ", focus: " ++ focus_clean
  ++ ". Provide: Problem Statement, Target Avatar, Current Solutions, The Gap, Value Proposition, Validation Signals, Competition Level, Monetization Pathways, Quick Win Strategy. Be extremely specific.".

Definition research_uvz_topic_prompt (topic_clean sources_text : string)
  : string :=
  "Based on these search results about '" ++ topic_clean
  ++ "', provide: Key Insights, Common Themes, Best Practices, Knowledge Gaps, Content Opportunities."
  ++ nl ++ nl ++ sources_text.

Definition validate_uvz_demand_prompt (uvz_clean findings : string) : string :=
  "Analyze market signals for: " ++ uvz_clean ++ nl ++ nl ++ findings
  ++ nl ++ nl
  ++ "Provide: Demand Level, Market Signals, Competition Analysis, Opportunity Score (1-10), Red Flags, Green Lights, Recommended Action (Go/No-Go).".

Definition generate_ebook_outline_prompt (topic_clean audience_clean : string)
    (page_count : Z) : string :=
  "Create comprehensive ebook outline for: Topic: " ++ topic_clean
  ++ ", Audience: " ++ audience_clean ++ ", Length: ~" ++ str_int page_count
  ++ " pages. Include: Title, Subtitle, Target Reader, Chapter Structure (10+ chapters with objectives, sections, estimated pages), Unique Selling Points, Key Takeaways, Marketing Hooks.".

Definition expand_chapter_prompt (chapter_clean points_clean : string)
  : string :=
  "Expand chapter: " ++ chapter_clean ++ ". Key points: " ++ points_clean
  ++ ". Provide: Opening Hook, Introduction, Main Sections (3-7 with key concepts, talking points, examples, mistakes to avoid, action steps), Chapter Summary, Transition. Include estimated word count and supporting elements needed.".

Definition generate_chapter_content_prompt
    (tone_clean chapter_clean outline : string) : string :=
  "Write full chapter in " ++ tone_clean ++ " tone: " ++ chapter_clean
  ++ nl ++ nl ++ "Outline:" ++ nl ++ outline ++ nl ++ nl
  ++ "Requirements: engaging prose, examples, subheadings, bullet points for lists, actionable takeaways, 2000-3000 words.".

Definition competitive_analysis_prompt (uvz_clean competitors_text : string)
  : string :=
  "Analyze competitors for: " ++ uvz_clean ++ nl ++ nl ++ competitors_text
  ++ nl ++ nl
  ++ "Provide: Market Saturation, Competitor Strengths, Weaknesses, Market Gaps, Differentiation Strategy, Positioning, Pricing Insights, Content Strategy.".

Definition landing_page_prompt (title_clean uvz_clean : string) : string :=
  "Create high-converting landing page for: " ++ title_clean ++ ", UVZ: "
  ++ uvz_clean
  ++ ". Include: Hero (headline, subheadline, CTA), Problem, Solution, Benefits, Social Proof, Features, Guarantee, Final CTA, FAQ.".

Definition email_sequence_prompt (title_clean uvz_clean : string) : string :=
  "Create 5-email sequence for: " ++ title_clean ++ ", UVZ: " ++ uvz_clean
  ++ ". Each email: subject, preview, body (300-500 words), CTA. Emails: 1-Welcome, 2-Story+Problem, 3-Solution, 4-Social Proof, 5-Urgency.".

Definition social_posts_prompt (title_clean uvz_clean : string) : string :=
  "Create 10 social posts for: " ++ title_clean ++ ", UVZ: " ++ uvz_clean
  ++ ". Include 3 educational, 3 engagement, 2 promotional, 2 testimonial posts. Each: platform, text, hashtags, visual description.".

Definition unknown_copy_type : string :=
  "Error: Unknown copy type. Use: landing_page, email_sequence, or social_posts".

(* ===================================================================== *)
(** ** The nine operations *)
(* ===================================================================== *)

Definition identify_industry_niches (w : World) (industry depth : string)
  : M string :=
  if negb (truthy (strip industry)) then ret "Error: Industry name is required"
  else if negb (configured w) then ret not_configured
  else
    let industry_clean := sanitize_input industry in
    try_except
      (depth_int <- int_or depth 3 ;;
       let prompt := identify_industry_niches_prompt industry_clean depth_int in
       analysis <- gemini_analyze w prompt ;;
       ret ("Industry Analysis: " ++ industry_clean ++ nl ++ nl ++ analysis
            ++ nl ++ nl ++ "Next Steps: Use drill_uvz to go deeper"))
      error_string.

Definition drill_uvz (w : World) (niche focus_area : string) : M string :=
  if negb (truthy (strip niche)) then ret "Error: Niche description is required"
  else if negb (configured w) then ret not_configured
  else
    let niche_clean := sanitize_input niche in
    let focus_clean :=
      if truthy (strip focus_area) then sanitize_input focus_area
      else "general opportunities" in
    try_except
      (let prompt := drill_uvz_prompt niche_clean focus_clean in
       analysis <- gemini_analyze w prompt ;;
       ret ("UVZ Deep Dive: " ++ niche_clean ++ nl ++ nl ++ analysis))
      error_string.

(** What [research_uvz_topic] does once the search has answered. *)
Definition research_uvz_topic_report (w : World) (topic_clean : string)
    (num_sources : Z) (results_data : list SearchResult) : M string :=
  match results_data with
  | [] => ret ("No search results found for: " ++ topic_clean)
  | _ :: _ =>
      let sources_text := source_lines (slice_to num_sources results_data) in
      if configured w then
        let analysis_prompt :=
          research_uvz_topic_prompt topic_clean sources_text in
        ai_analysis <- gemini_analyze w analysis_prompt ;;
        ret ("Research Report: " ++ topic_clean ++ nl ++ nl
             ++ "AI Analysis:" ++ nl ++ ai_analysis ++ nl ++ nl
             ++ "Sources:" ++ nl ++ sources_text)
      else
        ret ("Research Results: " ++ topic_clean ++ nl ++ nl
             ++ "Sources:" ++ nl ++ sources_text)
  end.

Definition research_uvz_topic (w : World) (topic sources : string)
  : M string :=
  if negb (truthy (strip topic)) then ret "Error: Topic is required"
  else
    let topic_clean := sanitize_input topic in
    try_except
      (num_sources <- int_or sources 10 ;;
       search_results <-
         web_search_free w (topic_clean ++ " guide tutorial best practices") ;;
       let results_data := json_loads search_results in
       research_uvz_topic_report w topic_clean num_sources results_data)
      error_string.

(** The query loop of [validate_uvz_demand]:
    [all_results.extend(json.loads(results)[:3])] for each query in turn. *)
Fixpoint extend_with_searches (w : World) (queries : list string)
    (all_results : list SearchResult) : M (list SearchResult) :=
  match queries with
  | [] => ret all_results
  | query :: rest =>
      results <- web_search_free w query ;;
      extend_with_searches w rest
        (all_results ++ slice_to 3 (json_loads results))%list
  end.

Definition validate_uvz_demand_queries (uvz_clean : string) : list string :=
  [uvz_clean ++ " problems"; uvz_clean ++ " solutions needed";
   "how to " ++ uvz_clean].

(** What [validate_uvz_demand] does once [all_results] is gathered. *)
Definition validate_uvz_demand_report (w : World) (uvz_clean : string)
    (all_results : list SearchResult) : M string :=
  match all_results with
  | [] => ret ("Limited demand signals found for: " ++ uvz_clean)
  | _ :: _ =>
      let findings := signal_lines all_results in
      if configured w then
        let validation_prompt :=
          validate_uvz_demand_prompt uvz_clean findings in
        validation <- gemini_analyze w validation_prompt ;;
        ret ("Demand Validation: " ++ uvz_clean ++ nl ++ nl ++ validation
             ++ nl ++ nl ++ "Raw Signals:" ++ nl ++ findings)
      else
        ret ("Market Signals: " ++ uvz_clean ++ nl ++ nl ++ findings)
  end.

Definition validate_uvz_demand (w : World) (uvz_description : string)
  : M string :=
  if negb (truthy (strip uvz_description))
  then ret "Error: UVZ description is required"
  else
    let uvz_clean := sanitize_input uvz_description in
    try_except
      (all_results <-
         extend_with_searches w (validate_uvz_demand_queries uvz_clean) [] ;;
       validate_uvz_demand_report w uvz_clean all_results)
      error_string.

Definition generate_ebook_outline (w : World) (topic audience length : string)
  : M string :=
  if negb (truthy (strip topic)) then ret "Error: Topic is required"
  else if negb (configured w) then ret not_configured
  else
    let topic_clean := sanitize_input topic in
    let audience_clean :=
      if truthy (strip audience) then sanitize_input audience
      else "general audience" in
    try_except
      (page_count <- int_or length 50 ;;
       let prompt :=
         generate_ebook_outline_prompt topic_clean audience_clean page_count in
       outline <- gemini_analyze w prompt ;;
       ret ("Ebook Outline Generated" ++ nl ++ nl ++ outline))
      error_string.

Definition expand_chapter (w : World) (chapter_title key_points : string)
  : M string :=
  if negb (truthy (strip chapter_title))
  then ret "Error: Chapter title is required"
  else if negb (configured w) then ret not_configured
  else
    let chapter_clean := sanitize_input chapter_title in
    let points_clean :=
      if truthy (strip key_points) then key_points
      else "Cover the main aspects" in
    try_except
      (let prompt := expand_chapter_prompt chapter_clean points_clean in
       expansion <- gemini_analyze w prompt ;;
       ret ("Chapter Expansion: " ++ chapter_clean ++ nl ++ nl ++ expansion))
      error_string.

Definition generate_chapter_content (w : World)
    (chapter_title outline tone : string) : M string :=
  if negb (truthy (strip chapter_title)) || negb (truthy (strip outline))
  then ret "Error: Chapter title and outline required"
  else if negb (configured w) then ret not_configured
  else
    let chapter_clean := sanitize_input chapter_title in
    let tone_clean := sanitize_input tone in
    try_except
      (let prompt :=
         generate_chapter_content_prompt tone_clean chapter_clean outline in
       content <- gemini_analyze w prompt ;;
       let word_count := split_len content in
       ret ("Chapter Content: " ++ chapter_clean ++ nl ++ nl ++ content
            ++ nl ++ nl ++ "Stats: ~" ++ str_nat word_count ++ " words, "
            ++ tone_clean ++ " tone"))
      error_string.

(** What [competitive_analysis] does once the search has answered. *)
Definition competitive_analysis_report (w : World) (uvz_clean : string)
    (num_competitors : Z) (results_data : list SearchResult) : M string :=
  match results_data with
  | [] => ret ("No competitors found for: " ++ uvz_clean)
  | _ :: _ =>
      let competitors_text :=
        source_lines (slice_to num_competitors results_data) in
      if configured w then
        let analysis_prompt :=
          competitive_analysis_prompt uvz_clean competitors_text in
        analysis <- gemini_analyze w analysis_prompt ;;
        ret ("Competitive Analysis: " ++ uvz_clean ++ nl ++ nl ++ analysis
             ++ nl ++ nl ++ "Competitors:" ++ nl ++ competitors_text)
      else
        ret ("Competitors: " ++ uvz_clean ++ nl ++ nl ++ competitors_text)
  end.

Definition competitive_analysis (w : World) (uvz competitors : string)
  : M string :=
  if negb (truthy (strip uvz)) then ret "Error: UVZ description is required"
  else
    let uvz_clean := sanitize_input uvz in
    try_except
      (num_competitors <- int_or competitors 5 ;;
       search_results <-
         web_search_free w (uvz_clean ++ " courses guides products solutions") ;;
       let results_data := json_loads search_results in
       competitive_analysis_report w uvz_clean num_competitors results_data)
      error_string.

(** The closed-set dispatch on the sanitized mode; [None] is the [else]. *)
Definition marketing_prompt (copy_type_clean title_clean uvz_clean : string)
  : option string :=
  if String.eqb copy_type_clean "landing_page"
  then Some (landing_page_prompt title_clean uvz_clean)
  else if String.eqb copy_type_clean "email_sequence"
  then Some (email_sequence_prompt title_clean uvz_clean)
  else if String.eqb copy_type_clean "social_posts"
  then Some (social_posts_prompt title_clean uvz_clean)
  else None.

Definition generate_marketing_copy (w : World)
    (product_title uvz copy_type : string) : M string :=
  if negb (truthy (strip product_title)) || negb (truthy (strip uvz))
  then ret "Error: Product title and UVZ required"
  else if negb (configured w) then ret not_configured
  else
    let title_clean := sanitize_input product_title in
    let uvz_clean := sanitize_input uvz in
    let copy_type_clean := sanitize_input copy_type in
    try_except
      (match marketing_prompt copy_type_clean title_clean uvz_clean with
       | Some prompt =>
           copy_content <- gemini_analyze w prompt ;;
           ret ("Marketing Copy: " ++ copy_type_clean ++ nl ++ nl
                ++ "Product: " ++ title_clean ++ nl ++ nl ++ copy_content)
       | None => ret unknown_copy_type
       end)
      error_string.

(* ===================================================================== *)
(** ** The tool surface *)
(* ===================================================================== *)

(** A keyword argument left out by the caller takes the default of the
    signature. *)
Definition kwarg (default : string) (given : option string) : string :=
  match given with Some v => v | None => default end.

Inductive tool_call : Type :=
| IdentifyIndustryNiches (industry depth : option string)
| DrillUvz (niche focus_area : option string)
| ResearchUvzTopic (topic sources : option string)
| ValidateUvzDemand (uvz_description : option string)
| GenerateEbookOutline (topic audience length : option string)
| ExpandChapter (chapter_title key_points : option string)
| GenerateChapterContent (chapter_title outline tone : option string)
| CompetitiveAnalysis (uvz competitors : option string)
| GenerateMarketingCopy (product_title uvz copy_type : option string).

Definition invoke (w : World) (c : tool_call) : M string :=
  match c with
  | IdentifyIndustryNiches industry depth =>
      identify_industry_niches w (kwarg "" industry) (kwarg "3" depth)
  | DrillUvz niche focus_area =>
      drill_uvz w (kwarg "" niche) (kwarg "" focus_area)
  | ResearchUvzTopic topic sources =>
      research_uvz_topic w (kwarg "" topic) (kwarg "10" sources)
  | ValidateUvzDemand uvz_description =>
      validate_uvz_demand w (kwarg "" uvz_description)
  | GenerateEbookOutline topic audience length =>
      generate_ebook_outline w (kwarg "" topic) (kwarg "" audience)
        (kwarg "50" length)
  | ExpandChapter chapter_title key_points =>
      expand_chapter w (kwarg "" chapter_title) (kwarg "" key_points)
  | GenerateChapterContent chapter_title outline tone =>
      generate_chapter_content w (kwarg "" chapter_title) (kwarg "" outline)
        (kwarg "professional" tone)
  | CompetitiveAnalysis uvz competitors =>
      competitive_analysis w (kwarg "" uvz) (kwarg "5" competitors)
  | GenerateMarketingCopy product_title uvz copy_type =>
      generate_marketing_copy w (kwarg "" product_title) (kwarg "" uvz)
        (kwarg "landing_page" copy_type)
  end.

(** The fields whose blankness the opening guard of each operation tests. *)
Definition required_fields (c : tool_call) : list string :=
  match c with
  | IdentifyIndustryNiches industry _ => [kwarg "" industry]
  | DrillUvz niche _ => [kwarg "" niche]
  | ResearchUvzTopic topic _ => [kwarg "" topic]
  | ValidateUvzDemand uvz_description => [kwarg "" uvz_description]
  | GenerateEbookOutline topic _ _ => [kwarg "" topic]
  | ExpandChapter chapter_title _ => [kwarg "" chapter_title]
  | GenerateChapterContent chapter_title outline _ =>
      [kwarg "" chapter_title; kwarg "" outline]
  | CompetitiveAnalysis uvz _ => [kwarg "" uvz]
  | GenerateMarketingCopy product_title uvz _ =>
      [kwarg "" product_title; kwarg "" uvz]
  end.

(** The operations that answer [not_configured] when there is no handle;
    the three search-backed ones list their raw results instead. *)
Definition ai_dependent (c : tool_call) : bool :=
  match c with
  | ResearchUvzTopic _ _ | ValidateUvzDemand _ | CompetitiveAnalysis _ _ =>
      false
  | _ => true
  end.

(** Empty or whitespace-only. *)
Definition blank (s : string) : bool := forallb_str isspace s.

(** The calls of a trace, by collaborator. *)
Definition searches (tr : trace) : list string :=
  flat_map (fun e => match e with HttpGet u => [u] | _ => [] end) tr.

Definition prompts (tr : trace) : list string :=
  flat_map (fun e => match e with GenerateContent p => [p] | _ => [] end) tr.

(** [field_clean = sanitize_input(field) if field.strip() else default] *)
Definition clean_or (default field : string) : string :=
  if truthy (strip field) then sanitize_input field else default.

(** The prompt of a call when every slot that takes user text holds the
    sanitized argument (or the fixed default of a blank optional one), the
    numeric slots the parsed count and the listing slot [listing]; the two
    slots of [key_points] and [outline] are left as parameters.  [None]
    when the call builds no prompt. *)
Definition prompt_of (c : tool_call) (listing points outline_slot : string)
  : option string :=
  match c with
  | IdentifyIndustryNiches industry depth =>
      match int_or_default (kwarg "3" depth) 3 with
      | Return n =>
          Some (identify_industry_niches_prompt
                  (sanitize_input (kwarg "" industry)) n)
      | Raise _ => None
      end
  | DrillUvz niche focus_area =>
      Some (drill_uvz_prompt (sanitize_input (kwarg "" niche))
              (clean_or "general opportunities" (kwarg "" focus_area)))
  | ResearchUvzTopic topic _ =>
      Some (research_uvz_topic_prompt (sanitize_input (kwarg "" topic)) listing)
  | ValidateUvzDemand uvz_description =>
      Some (validate_uvz_demand_prompt
              (sanitize_input (kwarg "" uvz_description)) listing)
  | GenerateEbookOutline topic audience length =>
      match int_or_default (kwarg "50" length) 50 with
      | Return n =>
          Some (generate_ebook_outline_prompt
                  (sanitize_input (kwarg "" topic))
                  (clean_or "general audience" (kwarg "" audience)) n)
      | Raise _ => None
      end
  | ExpandChapter chapter_title _ =>
      Some (expand_chapter_prompt (sanitize_input (kwarg "" chapter_title))
              points)
  | GenerateChapterContent chapter_title _ tone =>
      Some (generate_chapter_content_prompt
              (sanitize_input (kwarg "professional" tone))
              (sanitize_input (kwarg "" chapter_title)) outline_slot)
  | CompetitiveAnalysis uvz _ =>
      Some (competitive_analysis_prompt (sanitize_input (kwarg "" uvz)) listing)
  | GenerateMarketingCopy product_title uvz copy_type =>
      marketing_prompt (sanitize_input (kwarg "landing_page" copy_type))
        (sanitize_input (kwarg "" product_title))
        (sanitize_input (kwarg "" uvz))
  end.

(** The [key_points] and [outline] arguments of a call, [""] for the
    operations that have none. *)
Definition key_points_of (c : tool_call) : string :=
  match c with ExpandChapter _ key_points => kwarg "" key_points | _ => "" end.

Definition outline_of (c : tool_call) : string :=
  match c with
  | GenerateChapterContent _ outline _ => kwarg "" outline
  | _ => ""
  end.

(** The prompt the specification describes: every slot sanitized. *)
Definition sanitized_prompt (c : tool_call) (listing : string)
  : option string :=
  prompt_of c listing
    (clean_or "Cover the main aspects" (key_points_of c))
    (sanitize_input (outline_of c)).

(** The text [gemini_analyze] hands back for an answer of the backend. *)
Definition backend_text (o : outcome string) : string :=
  match o with
  | Return t => t
  | Raise e => "Error: " ++ str_exn e
  end.

(** A search that goes wrong: [client.get] raises (transport error,
    timeout), the status is not 2xx, or the parser raises. *)
Definition search_fails (w : World) (tr : trace) (query : string) : bool :=
  match http_get w tr (search_url query) with
  | Raise _ => true
  | Return resp =>
      negb (is_success resp)
      || match find_all_result w (text resp) with
         | Raise _ => true
         | Return _ => false
         end
  end.

(** The records one search hands to its caller, after [json.loads]. *)
Definition search_results (w : World) (query : string) (tr : trace)
  : list SearchResult :=
  match fst (web_search_free w query tr) with
  | Return j => json_loads j
  | Raise _ => []
  end.

(** The listing an operation builds from what its searches hand back, the
    searches starting at trace [tr]: the numbered title, snippet and link
    lines of the records, cut to the requested count
    ([results_data[:num_sources]], [results_data[:num_competitors]]), or
    the numbered title and snippet lines of the first three records of
    each of the three demand queries.  [""] for the operations with no
    search, and when the count does not parse. *)
Definition harvested_listing (w : World) (c : tool_call) (tr : trace)
  : string :=
  match c with
  | ResearchUvzTopic topic sources =>
      let q :=
        sanitize_input (kwarg "" topic) ++ " guide tutorial best practices" in
      match int_or_default (kwarg "10" sources) 10 with
      | Return n => source_lines (slice_to n (search_results w q tr))
      | Raise _ => ""
      end
  | ValidateUvzDemand uvz_description =>
      let uvz_clean := sanitize_input (kwarg "" uvz_description) in
      let q1 := uvz_clean ++ " problems" in
      let q2 := uvz_clean ++ " solutions needed" in
      let q3 := "how to " ++ uvz_clean in
      let t1 := (tr ++ [HttpGet (search_url q1)])%list in
      let t2 := (t1 ++ [HttpGet (search_url q2)])%list in
      signal_lines
        (firstn 3 (search_results w q1 tr)
         ++ firstn 3 (search_results w q2 t1)
         ++ firstn 3 (search_results w q3 t2))%list
  | CompetitiveAnalysis uvz competitors =>
      let q :=
        sanitize_input (kwarg "" uvz)
        ++ " courses guides products solutions" in
      match int_or_default (kwarg "5" competitors) 5 with
      | Return n => source_lines (slice_to n (search_results w q tr))
      | Raise _ => ""
      end
  | _ => ""
  end.

(** A batch of new calls, made from trace [tr] on, is admissible for a call
    [c] when every prompt in it was sent to a configured backend and is the
    prompt of [c] with its user slots sanitized, its listing slot holding
    the listing harvested from the searches, whatever fills the
    [key_points] slot, and with the [outline] argument as it was passed. *)
Definition sends_only (w : World) (c : tool_call) (tr new : trace) : Prop :=
  forall p : string,
    In p (prompts new) ->
    configured w = true
    /\ exists points : string,
         prompt_of c (harvested_listing w c tr) points (outline_of c)
         = Some p.

Definition cafe : string := "caf" ++ String e_acute EmptyString.

(* ===================================================================== *)
(** ** Sample worlds *)
(* ===================================================================== *)

Definition sample_divs : list result_div :=
  [ mk_div (Some (mk_anchor "Yoga for Desk Workers"
                    (Some "https://example.org/yoga")))
           (Some (mk_anchor "Stretch at your desk." None));
    mk_div None (Some (mk_anchor "An advert" None));
    mk_div (Some (mk_anchor "Back Pain Guide" None)) None ].

(** A backend that answers every prompt with the same text. *)
Definition mock_backend : trace -> string -> outcome string :=
  fun _ _ => Return "MOCK_ANALYSIS".

(** Search answers 200 with the three sample blocks; backend configured. *)
Definition online_world : World :=
  mk_world (Some mock_backend)
           (fun _ _ => Return (mk_response 200 "" "<html>"))
           (fun _ => Return sample_divs).

(** The same search, no credential. *)
Definition unconfigured_world : World :=
  mk_world None
           (fun _ _ => Return (mk_response 200 "" "<html>"))
           (fun _ => Return sample_divs).

(** The search endpoint times out. *)
Definition offline_world : World :=
  mk_world (Some mock_backend)
           (fun _ _ => Raise (TimeoutException "timed out"))
           (fun _ => Return sample_divs).

(* ===================================================================== *)
(** ** Process start *)
(* ===================================================================== *)

(** [os.environ], and [os.environ.get(key, default)]. *)
Definition environ : Type := list (string * string).

Fixpoint environ_lookup (env : environ) (key : string) : option string :=
  match env with
  | [] => None
  | (k, v) :: rest => if String.eqb k key then Some v else environ_lookup rest key
  end.

Definition environ_get (env : environ) (key default : string) : string :=
  match environ_lookup env key with
  | Some v => v
  | None => default
  end.

Definition GEMINI_API_KEY (env : environ) : string :=
  environ_get env "GEMINI_API_KEY" "".

(** The module-level initialisation of [model].  [genai api_key name] is
    the handle [genai.GenerativeModel(name)] gives once
    [genai.configure(api_key=api_key)] has run. *)
Definition startup_model
    (genai : string -> string -> trace -> string -> outcome string)
    (env : environ) : option (trace -> string -> outcome string) :=
  if truthy (GEMINI_API_KEY env)
  then Some (genai (GEMINI_API_KEY env) "gemini-2.0-flash-exp")
  else None.

Definition startup
    (genai : string -> string -> trace -> string -> outcome string)
    (env : environ)
    (get : trace -> string -> outcome response)
    (parse : string -> outcome (list result_div)) : World :=
  mk_world (startup_model genai env) get parse.

(* ===================================================================== *)
(** ** Views of a call *)
(* ===================================================================== *)

(** The numeric field of a call, as passed, with its fallback. *)
Definition count_field (c : tool_call) : option (string * Z) :=
  match c with
  | IdentifyIndustryNiches _ depth => Some (kwarg "3" depth, 3%Z)
  | ResearchUvzTopic _ sources => Some (kwarg "10" sources, 10%Z)
  | GenerateEbookOutline _ _ length => Some (kwarg "50" length, 50%Z)
  | CompetitiveAnalysis _ competitors => Some (kwarg "5" competitors, 5%Z)
  | _ => None
  end.

(** The same call with the numeric field replaced. *)
Definition with_count (c : tool_call) (count : option string) : tool_call :=
  match c with
  | IdentifyIndustryNiches industry _ => IdentifyIndustryNiches industry count
  | ResearchUvzTopic topic _ => ResearchUvzTopic topic count
  | GenerateEbookOutline topic audience _ =>
      GenerateEbookOutline topic audience count
  | CompetitiveAnalysis uvz _ => CompetitiveAnalysis uvz count
  | _ => c
  end.

(** The search queries an operation builds, in the order it issues them. *)
Definition queries_of (c : tool_call) : list string :=
  match c with
  | ResearchUvzTopic topic _ =>
      [sanitize_input (kwarg "" topic) ++ " guide tutorial best practices"]
  | ValidateUvzDemand uvz_description =>
      validate_uvz_demand_queries (sanitize_input (kwarg "" uvz_description))
  | CompetitiveAnalysis uvz _ =>
      [sanitize_input (kwarg "" uvz) ++ " courses guides products solutions"]
  | _ => []
  end.

(** The shape of a run: a text comes back; the new calls are searches
    first, either none or exactly the queries of the call, then at most one
    prompt, sent only to a configured backend and then answered by a report,
    not by an [Error:] text. *)
Definition run_shape (w : World) (c : tool_call) (tr : trace)
    (res : outcome string * trace) : Prop :=
  exists (out : string) (urls ps : list string),
    res = (Return out,
           (tr ++ map HttpGet urls ++ map GenerateContent ps)%list)
    /\ (urls = [] \/ urls = map search_url (queries_of c))
    /\ (ps = []
        \/ exists p : string,
             ps = [p] /\ configured w = true
             /\ String.prefix "Error:" out = false).

Definition has_title (d : result_div) : bool :=
  match title_elem d with Some _ => true | None => false end.

(** A backend that is configured and fails on every call. *)
Definition failing_backend : trace -> string -> outcome string :=
  fun _ _ => Raise (BackendError "quota exceeded").

Definition failing_world : World :=
  mk_world (Some failing_backend)
           (fun _ _ => Return (mk_response 200 "" "<html>"))
           (fun _ => Return sample_divs).

(** A sample key-to-handle map and environments. *)
Definition sample_genai : string -> string -> trace -> string -> outcome string :=
  fun _ _ => mock_backend.

Definition env_without_key : environ := [("HOME", "/root")].
Definition env_with_empty_key : environ :=
  [("HOME", "/root"); ("GEMINI_API_KEY", "")].

(* ===================================================================== *)
(** ** The sanitizer *)
(* ===================================================================== *)

Section Sanitizer.

Variable cls : Re.char_class.

(** Substituting the empty text deletes exactly the matching characters. *)
Lemma sub_delete_chars (s : string) :
  chars (Re.sub cls "" s)
  = filter (fun c => negb (Re.class_matches cls c)) (chars s).
Proof.
  induction s as [|c r IH]; simpl; [reflexivity|].
  destruct (Re.class_matches cls c); simpl; now rewrite <- IH.
Qed.

(** What survives a deletion no longer matches, so deleting again changes
    nothing. *)
Lemma sub_delete_idempotent (s : string) :
  Re.sub cls "" (Re.sub cls "" s) = Re.sub cls "" s.
Proof.
  induction s as [|c r IH]; simpl; [reflexivity|].
  destruct (Re.class_matches cls c) eqn:E; simpl; [exact IH|].
  now rewrite E, IH.
Qed.

End Sanitizer.

Lemma forallb_str_chars (p : ascii -> bool) (s : string) :
  forallb_str p s = forallb p (chars s).
Proof. induction s as [|c r IH]; simpl; [reflexivity | now rewrite IH]. Qed.

Lemma kept_pattern_set (c : ascii) : kept c = in_pattern_set c.
Proof.
  unfold kept, in_pattern_set, Re.class_matches; simpl.
  destruct (Re.is_word c), (isspace c), (Ascii.eqb c "-"), (Ascii.eqb c ","),
    (Ascii.eqb c "."); reflexivity.
Qed.

(** On ASCII the kept set is the one the specification writes out. *)
Lemma pattern_set_ascii (c : ascii) :
  in_pattern_set c = true -> in_spec_set c || negb (is_ascii c) = true.
Proof.
  destruct c as [[] [] [] [] [] [] [] []]; vm_compute; trivial.
Qed.

Lemma forallb_filter_same {A : Type} (p : A -> bool) (l : list A) :
  forallb p (filter p l) = true.
Proof.
  induction l as [|a l IH]; simpl; [reflexivity|].
  destruct (p a) eqn:E; simpl; [now rewrite E|exact IH].
Qed.

(** C2, as amended: for every input [x], [sanitize_input x] is [x] with
    exactly the characters outside [\w\s\-,.] removed, where [\w] is the
    engine's word class (letters and digits beyond ASCII included); every
    character of the result is in that set, and every ASCII character of the
    result is in [A-Za-z0-9_\s\-,.].  The function is total. *)
Theorem sanitize_input_keeps_pattern_set (x : string) :
  chars (sanitize_input x) = filter in_pattern_set (chars x)
  /\ forallb_str in_pattern_set (sanitize_input x) = true
  /\ forallb_str (fun c => in_spec_set c || negb (is_ascii c))
       (sanitize_input x) = true.
Proof.
  assert (E : chars (sanitize_input x) = filter in_pattern_set (chars x)).
  { unfold sanitize_input. rewrite sub_delete_chars.
    apply filter_ext. intro c. apply kept_pattern_set. }
  split; [exact E|].
  rewrite !forallb_str_chars, E. split.
  - apply forallb_filter_same.
  - apply forallb_forall. intros c Hc.
    apply filter_In in Hc. now apply pattern_set_ascii.
Qed.

(** C2, as stated, fails: the sanitizer keeps the e-acute of [cafe], a
    character outside [A-Za-z0-9_\s\-,.]. *)
Lemma sanitize_input_keeps_e_acute :
  sanitize_input cafe = cafe
  /\ forallb_str in_spec_set (sanitize_input cafe) = false.
Proof. split; vm_compute; reflexivity. Qed.

(** C9: [sanitize_input] is idempotent, and maps the empty text to itself. *)
Theorem sanitize_input_idempotent :
  (forall x : string, sanitize_input (sanitize_input x) = sanitize_input x)
  /\ sanitize_input "" = "".
Proof.
  split; [|reflexivity].
  intro x. unfold sanitize_input. apply sub_delete_idempotent.
Qed.

(* ===================================================================== *)
(** ** Blank fields *)
(* ===================================================================== *)

Lemma truthy_rstrip_nonspace (c : ascii) (r : string) :
  isspace c = false -> truthy (rstrip (String c r)) = true.
Proof.
  intro H. simpl. destruct (rstrip r); [now rewrite H | reflexivity].
Qed.

Lemma lstrip_cases (s : string) :
  (blank s = true /\ lstrip s = "")
  \/ (blank s = false
      /\ exists c r, lstrip s = String c r /\ isspace c = false).
Proof.
  induction s as [|c r IH]; simpl; [now left|].
  unfold blank in *; simpl.
  destruct (isspace c) eqn:E; simpl; [exact IH|].
  right. split; [reflexivity|]. now exists c, r.
Qed.

(** [s.strip()] is empty exactly when [s] is empty or all whitespace. *)
Lemma truthy_strip (s : string) : truthy (strip s) = negb (blank s).
Proof.
  unfold strip.
  destruct (lstrip_cases s) as [[Hb Hl] | [Hb (c & r & Hl & Hc)]];
    rewrite Hb, Hl; simpl; [reflexivity|].
  now apply truthy_rstrip_nonspace.
Qed.

(* ===================================================================== *)
(** ** The two collaborators *)
(* ===================================================================== *)

(** A search makes one GET and hands back a list, whatever happens. *)
Lemma web_search_free_run (w : World) (query : string) (tr : trace) :
  web_search_free w query tr
  = (Return (json_dumps (search_results w query tr)),
     (tr ++ [HttpGet (search_url query)])%list).
Proof.
  unfold search_results.
  unfold web_search_free, try_except, bind, client_get, raise_for_status,
    find_all, lift, ret, raise.
  destruct (http_get w tr (search_url query)) as [resp|e]; simpl;
    [|reflexivity].
  destruct (is_success resp); simpl; [|reflexivity].
  destruct (find_all_result w (text resp)); reflexivity.
Qed.

Lemma gemini_analyze_configured (w : World) m (prompt : string) (tr : trace) :
  model w = Some m ->
  gemini_analyze w prompt tr
  = (Return (backend_text (m tr prompt)),
     (tr ++ [GenerateContent prompt])%list).
Proof.
  intro H. unfold gemini_analyze, try_except, generate_content. rewrite H.
  destruct (m tr prompt); reflexivity.
Qed.


Lemma configured_true (w : World) :
  configured w = true -> exists m, model w = Some m.
Proof. unfold configured. destruct (model w) as [m|]; [now exists m | discriminate]. Qed.

Lemma configured_false (w : World) : configured w = false -> model w = None.
Proof. unfold configured. destruct (model w); [discriminate | reflexivity]. Qed.

(** C3: when the search meets a transport error, a timeout, a status
    outside 2xx or a parser exception, [web_search_free] returns the empty
    list of results and raises nothing. *)
Theorem web_search_free_fails_soft (w : World) (query : string) (tr : trace) :
  search_fails w tr query = true ->
  web_search_free w query tr
  = (Return (json_dumps []), (tr ++ [HttpGet (search_url query)])%list).
Proof.
  unfold search_fails, web_search_free, try_except, bind, client_get,
    raise_for_status, find_all, lift, ret, raise.
  destruct (http_get w tr (search_url query)) as [resp|e]; simpl;
    [|reflexivity].
  destruct (is_success resp); simpl; [|reflexivity].
  destruct (find_all_result w (text resp)); [discriminate | reflexivity].
Qed.

(** The soft failure, on a search endpoint that times out. *)
Lemma web_search_free_fails_soft_witness :
  search_fails offline_world [] "yoga" = true
  /\ web_search_free offline_world "yoga" []
     = (Return (json_dumps []), [HttpGet (search_url "yoga")]).
Proof.
  split; [reflexivity|].
  apply (web_search_free_fails_soft offline_world "yoga" []). reflexivity.
Defined.

(* ===================================================================== *)
(** ** Validation and configuration guards *)
(* ===================================================================== *)

Lemma blank_guard (s : string) : blank s = true -> negb (truthy (strip s)) = true.
Proof. intro H. now rewrite truthy_strip, H. Qed.

Lemma nonblank_guard (s : string) :
  blank s = false -> negb (truthy (strip s)) = false.
Proof. intro H. now rewrite truthy_strip, H. Qed.

Lemma unconfigured_guard (w : World) :
  model w = None -> negb (configured w) = true.
Proof. intro H. unfold configured. now rewrite H. Qed.

(** C6: each of the nine operations, called with every required field
    blank, returns a text that starts with [Error:] and calls neither the
    search endpoint nor the backend: the trace is left as it was. *)
Theorem blank_required_fields_rejected (w : World) (c : tool_call) (tr : trace) :
  forallb blank (required_fields c) = true ->
  exists msg : string,
    invoke w c tr = (Return msg, tr) /\ String.prefix "Error:" msg = true.
Proof.
  intro H.
  destruct c; simpl in H;
    repeat match type of H with
           | (_ && _)%bool = true =>
               let H1 := fresh "Hb" in
               apply andb_prop in H; destruct H as [H1 H]
           end;
    unfold invoke, identify_industry_niches, drill_uvz, research_uvz_topic,
      validate_uvz_demand, generate_ebook_outline, expand_chapter,
      generate_chapter_content, competitive_analysis, generate_marketing_copy;
    rewrite (blank_guard _ Hb); simpl; eexists; split; reflexivity.
Qed.

(** The rejection, on a chapter request with a whitespace title and no
    outline. *)
Lemma blank_required_fields_rejected_witness :
  forallb blank (required_fields
                   (GenerateChapterContent (Some "  ") None (Some "warm")))
  = true
  /\ exists msg : string,
       invoke online_world
         (GenerateChapterContent (Some "  ") None (Some "warm")) []
       = (Return msg, []) /\ String.prefix "Error:" msg = true.
Proof.
  split; [reflexivity|].
  apply (blank_required_fields_rejected online_world
           (GenerateChapterContent (Some "  ") None (Some "warm")) []).
  reflexivity.
Defined.

(* ===================================================================== *)
(** ** What each operation sends *)
(* ===================================================================== *)

Lemma prompts_app (a b : trace) :
  prompts (a ++ b)%list = (prompts a ++ prompts b)%list.
Proof. unfold prompts. apply flat_map_app. Qed.

Lemma searches_app (a b : trace) :
  searches (a ++ b)%list = (searches a ++ searches b)%list.
Proof. unfold searches. apply flat_map_app. Qed.

Lemma try_except_return {A : Type} (body : M A) (handler : exn -> M A)
    (tr tr' : trace) (a : A) :
  body tr = (Return a, tr') -> try_except body handler tr = (Return a, tr').
Proof. intro H. unfold try_except. now rewrite H. Qed.

Ltac unfold_ops :=
  unfold invoke, identify_industry_niches, drill_uvz, research_uvz_topic,
    validate_uvz_demand, generate_ebook_outline, expand_chapter,
    generate_chapter_content, competitive_analysis, generate_marketing_copy.

Ltac unfold_monad :=
  unfold try_except, bind, int_or, lift, ret, error_string in *.

(** Closes a branch in which the operation returns without any call. *)
Ltac silent :=
  eexists _, []; rewrite app_nil_r; split; [reflexivity | intros ? []].

(** Splits on the opening guards: blank field, then missing handle. *)
Ltac guards w :=
  match goal with
  | |- context [negb (truthy (strip ?s))] =>
      destruct (negb (truthy (strip s))); simpl; [silent | guards w]
  | |- context [negb (configured w)] =>
      let Hc := fresh "Hc" in
      let m := fresh "m" in
      let Hm := fresh "Hm" in
      destruct (configured w) eqn:Hc; simpl;
      [destruct (configured_true _ Hc) as [m Hm] | silent]
  | _ => idtac
  end.

(** The report stage of [validate_uvz_demand] searches nothing, raises
    nothing, and sends at most the validation prompt. *)
Lemma validate_uvz_demand_report_run (w : World) (uvz_clean : string)
    (all_results : list SearchResult) (tr : trace) :
  exists (out : string) (new : trace),
    validate_uvz_demand_report w uvz_clean all_results tr
    = (Return out, (tr ++ new)%list)
    /\ searches new = []
    /\ forall p, In p (prompts new) ->
         configured w = true
         /\ p = validate_uvz_demand_prompt uvz_clean (signal_lines all_results).
Proof.
  unfold validate_uvz_demand_report.
  destruct all_results as [|r l].
  { eexists _, []. rewrite app_nil_r.
    split; [reflexivity | split; [reflexivity | intros ? []]]. }
  destruct (configured w) eqn:Hc.
  - destruct (configured_true _ Hc) as [m Hm]. unfold_monad.
    rewrite (gemini_analyze_configured _ _ _ _ Hm).
    eexists _, [_].
    split; [reflexivity | split; [reflexivity | intros p [<-|[]]]].
    now split.
  - eexists _, []. rewrite app_nil_r.
    split; [reflexivity | split; [reflexivity | intros ? []]].
Qed.

Lemma competitive_analysis_report_run (w : World) (uvz_clean : string)
    (n : Z) (results_data : list SearchResult) (tr : trace) :
  exists (out : string) (new : trace),
    competitive_analysis_report w uvz_clean n results_data tr
    = (Return out, (tr ++ new)%list)
    /\ searches new = []
    /\ forall p, In p (prompts new) ->
         configured w = true
         /\ p = competitive_analysis_prompt uvz_clean
                  (source_lines (slice_to n results_data)).
Proof.
  unfold competitive_analysis_report.
  destruct results_data as [|r l].
  { eexists _, []. rewrite app_nil_r.
    split; [reflexivity | split; [reflexivity | intros ? []]]. }
  destruct (configured w) eqn:Hc.
  - destruct (configured_true _ Hc) as [m Hm]. unfold_monad.
    rewrite (gemini_analyze_configured _ _ _ _ Hm).
    eexists _, [_].
    split; [reflexivity | split; [reflexivity | intros p [<-|[]]]].
    now split.
  - eexists _, []. rewrite app_nil_r.
    split; [reflexivity | split; [reflexivity | intros ? []]].
Qed.

Lemma research_uvz_topic_report_run (w : World) (topic_clean : string)
    (n : Z) (results_data : list SearchResult) (tr : trace) :
  exists (out : string) (new : trace),
    research_uvz_topic_report w topic_clean n results_data tr
    = (Return out, (tr ++ new)%list)
    /\ searches new = []
    /\ forall p, In p (prompts new) ->
         configured w = true
         /\ p = research_uvz_topic_prompt topic_clean
                  (source_lines (slice_to n results_data)).
Proof.
  unfold research_uvz_topic_report.
  destruct results_data as [|r l].
  { eexists _, []. rewrite app_nil_r.
    split; [reflexivity | split; [reflexivity | intros ? []]]. }
  destruct (configured w) eqn:Hc.
  - destruct (configured_true _ Hc) as [m Hm]. unfold_monad.
    rewrite (gemini_analyze_configured _ _ _ _ Hm).
    eexists _, [_].
    split; [reflexivity | split; [reflexivity | intros p [<-|[]]]].
    now split.
  - eexists _, []. rewrite app_nil_r.
    split; [reflexivity | split; [reflexivity | intros ? []]].
Qed.

(** The three searches of [validate_uvz_demand], then its report. *)
Lemma validate_uvz_demand_run (w : World) (uvz_description : string)
    (tr : trace) :
  blank uvz_description = false ->
  let uvz_clean := sanitize_input uvz_description in
  let q1 := uvz_clean ++ " problems" in
  let q2 := uvz_clean ++ " solutions needed" in
  let q3 := "how to " ++ uvz_clean in
  let t1 := (tr ++ [HttpGet (search_url q1)])%list in
  let t2 := (t1 ++ [HttpGet (search_url q2)])%list in
  let t3 := (t2 ++ [HttpGet (search_url q3)])%list in
  validate_uvz_demand w uvz_description tr
  = validate_uvz_demand_report w uvz_clean
      (firstn 3 (search_results w q1 tr)
       ++ firstn 3 (search_results w q2 t1)
       ++ firstn 3 (search_results w q3 t2))%list t3.
Proof.
  intros Hb uvz_clean q1 q2 q3 t1 t2 t3.
  unfold validate_uvz_demand. rewrite (nonblank_guard _ Hb).
  fold uvz_clean.
  match goal with
  | |- _ = ?rhs =>
      destruct (validate_uvz_demand_report_run w uvz_clean
                  (firstn 3 (search_results w q1 tr)
                   ++ firstn 3 (search_results w q2 t1)
                   ++ firstn 3 (search_results w q3 t2))%list t3)
        as (out & new & Hr & _)
  end.
  rewrite Hr. apply try_except_return.
  unfold validate_uvz_demand_queries, extend_with_searches, bind at 1.
  fold q1 q2 q3. unfold bind.
  rewrite (web_search_free_run w q1 tr). fold t1.
  rewrite (web_search_free_run w q2 t1). fold t2.
  rewrite (web_search_free_run w q3 t2). fold t3.
  unfold ret, json_loads, json_dumps, slice_to. simpl Z.ltb. cbv iota.
  change (Z.to_nat 3) with 3%nat.
  rewrite <- app_assoc. exact Hr.
Qed.

Lemma competitive_analysis_run (w : World) (uvz competitors : string)
    (tr : trace) :
  blank uvz = false ->
  let uvz_clean := sanitize_input uvz in
  let q := uvz_clean ++ " courses guides products solutions" in
  competitive_analysis w uvz competitors tr
  = match int_or_default competitors 5 with
    | Return n =>
        competitive_analysis_report w uvz_clean n (search_results w q tr)
          (tr ++ [HttpGet (search_url q)])%list
    | Raise e => (Return ("Error: " ++ str_exn e), tr)
    end.
Proof.
  intros Hb uvz_clean q.
  unfold competitive_analysis. rewrite (nonblank_guard _ Hb).
  fold uvz_clean. fold q.
  destruct (int_or_default competitors 5) as [n|e] eqn:Hi.
  - destruct (competitive_analysis_report_run w uvz_clean n
                (search_results w q tr) (tr ++ [HttpGet (search_url q)])%list)
      as (out & new & Hr & _).
    rewrite Hr. apply try_except_return.
    unfold bind, int_or, lift. rewrite Hi.
    rewrite (web_search_free_run w q tr). exact Hr.
  - unfold_monad. rewrite Hi. reflexivity.
Qed.

Lemma research_uvz_topic_run (w : World) (topic sources : string)
    (tr : trace) :
  blank topic = false ->
  let topic_clean := sanitize_input topic in
  let q := topic_clean ++ " guide tutorial best practices" in
  research_uvz_topic w topic sources tr
  = match int_or_default sources 10 with
    | Return n =>
        research_uvz_topic_report w topic_clean n (search_results w q tr)
          (tr ++ [HttpGet (search_url q)])%list
    | Raise e => (Return ("Error: " ++ str_exn e), tr)
    end.
Proof.
  intros Hb topic_clean q.
  unfold research_uvz_topic. rewrite (nonblank_guard _ Hb).
  fold topic_clean. fold q.
  destruct (int_or_default sources 10) as [n|e] eqn:Hi.
  - destruct (research_uvz_topic_report_run w topic_clean n
                (search_results w q tr) (tr ++ [HttpGet (search_url q)])%list)
      as (out & new & Hr & _).
    rewrite Hr. apply try_except_return.
    unfold bind, int_or, lift. rewrite Hi.
    rewrite (web_search_free_run w q tr). exact Hr.
  - unfold_monad. rewrite Hi. reflexivity.
Qed.

Lemma blank_cases (s : string) :
  {blank s = true /\ negb (truthy (strip s)) = true}
  + {blank s = false /\ negb (truthy (strip s)) = false}.
Proof.
  destruct (blank s) eqn:E; [left | right]; split; trivial;
    now rewrite truthy_strip, E.
Qed.

(** A configured backend answers one prompt: the call is appended. *)
Ltac one_prompt Hc Hm :=
  unfold_monad; rewrite (gemini_analyze_configured _ _ _ _ Hm);
  eexists _, [_]; split; [reflexivity|];
  intros ? [<-|[]]; split; [exact Hc|].

Lemma identify_industry_niches_sends (w : World) industry depth (tr : trace) :
  exists (out : string) (new : trace),
    invoke w (IdentifyIndustryNiches industry depth) tr
    = (Return out, (tr ++ new)%list)
    /\ sends_only w (IdentifyIndustryNiches industry depth) tr new.
Proof.
  unfold_ops. guards w.
  destruct (int_or_default (kwarg "3" depth) 3) as [n|e] eqn:Hi.
  - unfold int_or at 1. unfold lift, bind at 1, try_except. rewrite Hi.
    unfold bind, ret. rewrite (gemini_analyze_configured _ _ _ _ Hm).
    eexists _, [_]; split; [reflexivity|].
    intros ? [<-|[]]; split; [exact Hc|].
    exists "". simpl. now rewrite Hi.
  - unfold_monad. rewrite Hi. silent.
Qed.

Lemma drill_uvz_sends (w : World) niche focus_area (tr : trace) :
  exists (out : string) (new : trace),
    invoke w (DrillUvz niche focus_area) tr = (Return out, (tr ++ new)%list)
    /\ sends_only w (DrillUvz niche focus_area) tr new.
Proof.
  unfold_ops. guards w. one_prompt Hc Hm. now exists "".
Qed.

Lemma generate_ebook_outline_sends (w : World) topic audience length
    (tr : trace) :
  exists (out : string) (new : trace),
    invoke w (GenerateEbookOutline topic audience length) tr
    = (Return out, (tr ++ new)%list)
    /\ sends_only w (GenerateEbookOutline topic audience length) tr new.
Proof.
  unfold_ops. guards w.
  destruct (int_or_default (kwarg "50" length) 50) as [n|e] eqn:Hi.
  - unfold int_or at 1. unfold lift, bind at 1, try_except. rewrite Hi.
    unfold bind, ret. rewrite (gemini_analyze_configured _ _ _ _ Hm).
    eexists _, [_]; split; [reflexivity|].
    intros ? [<-|[]]; split; [exact Hc|].
    exists "". simpl. now rewrite Hi.
  - unfold_monad. rewrite Hi. silent.
Qed.

Lemma expand_chapter_sends (w : World) chapter_title key_points (tr : trace) :
  exists (out : string) (new : trace),
    invoke w (ExpandChapter chapter_title key_points) tr
    = (Return out, (tr ++ new)%list)
    /\ sends_only w (ExpandChapter chapter_title key_points) tr new.
Proof.
  unfold_ops. guards w. one_prompt Hc Hm.
  eexists. reflexivity.
Qed.

Lemma generate_chapter_content_sends (w : World) chapter_title outline tone
    (tr : trace) :
  exists (out : string) (new : trace),
    invoke w (GenerateChapterContent chapter_title outline tone) tr
    = (Return out, (tr ++ new)%list)
    /\ sends_only w (GenerateChapterContent chapter_title outline tone) tr new.
Proof.
  unfold_ops.
  destruct (negb (truthy (strip (kwarg "" chapter_title)))
            || negb (truthy (strip (kwarg "" outline)))); simpl; [silent|].
  guards w. one_prompt Hc Hm. now exists "".
Qed.

Lemma generate_marketing_copy_sends (w : World) product_title uvz copy_type
    (tr : trace) :
  exists (out : string) (new : trace),
    invoke w (GenerateMarketingCopy product_title uvz copy_type) tr
    = (Return out, (tr ++ new)%list)
    /\ sends_only w (GenerateMarketingCopy product_title uvz copy_type) tr new.
Proof.
  unfold_ops.
  destruct (negb (truthy (strip (kwarg "" product_title)))
            || negb (truthy (strip (kwarg "" uvz)))); simpl; [silent|].
  guards w.
  destruct (marketing_prompt
              (sanitize_input (kwarg "landing_page" copy_type))
              (sanitize_input (kwarg "" product_title))
              (sanitize_input (kwarg "" uvz))) as [prompt|] eqn:Hp.
  - one_prompt Hc Hm. exists "". exact Hp.
  - unfold_monad. silent.
Qed.

Lemma research_uvz_topic_sends (w : World) topic sources (tr : trace) :
  exists (out : string) (new : trace),
    invoke w (ResearchUvzTopic topic sources) tr
    = (Return out, (tr ++ new)%list)
    /\ sends_only w (ResearchUvzTopic topic sources) tr new.
Proof.
  unfold invoke.
  destruct (blank_cases (kwarg "" topic)) as [[Hb Hg]|[Hb Hg]].
  { unfold research_uvz_topic. rewrite Hg. silent. }
  rewrite (research_uvz_topic_run w _ _ tr Hb). cbv zeta.
  destruct (int_or_default (kwarg "10" sources) 10) as [n|e] eqn:Hi;
    [|silent].
  match goal with
  | |- context [research_uvz_topic_report w ?u ?k ?rs ?t] =>
      destruct (research_uvz_topic_report_run w u k rs t)
        as (out & new & Hr & _ & Hp)
  end.
  rewrite Hr. rewrite <- !app_assoc.
  eexists _, _. split; [reflexivity|].
  intros p Hin. simpl in Hin. destruct (Hp p Hin) as [Hc ->].
  split; [exact Hc|]. exists "".
  unfold harvested_listing, prompt_of. cbv zeta. now rewrite Hi.
Qed.

Lemma validate_uvz_demand_sends (w : World) uvz_description (tr : trace) :
  exists (out : string) (new : trace),
    invoke w (ValidateUvzDemand uvz_description) tr
    = (Return out, (tr ++ new)%list)
    /\ sends_only w (ValidateUvzDemand uvz_description) tr new.
Proof.
  unfold invoke.
  destruct (blank_cases (kwarg "" uvz_description)) as [[Hb Hg]|[Hb Hg]].
  { unfold validate_uvz_demand. rewrite Hg. silent. }
  rewrite (validate_uvz_demand_run w _ tr Hb). cbv zeta.
  match goal with
  | |- context [validate_uvz_demand_report w ?u ?all ?t] =>
      destruct (validate_uvz_demand_report_run w u all t)
        as (out & new & Hr & _ & Hp)
  end.
  rewrite Hr. rewrite <- !app_assoc.
  eexists _, _. split; [reflexivity|].
  intros p Hin. simpl in Hin. destruct (Hp p Hin) as [Hc ->].
  split; [exact Hc|]. now exists "".
Qed.

Lemma competitive_analysis_sends (w : World) uvz competitors (tr : trace) :
  exists (out : string) (new : trace),
    invoke w (CompetitiveAnalysis uvz competitors) tr
    = (Return out, (tr ++ new)%list)
    /\ sends_only w (CompetitiveAnalysis uvz competitors) tr new.
Proof.
  unfold invoke.
  destruct (blank_cases (kwarg "" uvz)) as [[Hb Hg]|[Hb Hg]].
  { unfold competitive_analysis. rewrite Hg. silent. }
  rewrite (competitive_analysis_run w _ _ tr Hb). cbv zeta.
  destruct (int_or_default (kwarg "5" competitors) 5) as [n|e] eqn:Hi;
    [|silent].
  match goal with
  | |- context [competitive_analysis_report w ?u ?k ?rs ?t] =>
      destruct (competitive_analysis_report_run w u k rs t)
        as (out & new & Hr & _ & Hp)
  end.
  rewrite Hr. rewrite <- !app_assoc.
  eexists _, _. split; [reflexivity|].
  intros p Hin. simpl in Hin. destruct (Hp p Hin) as [Hc ->].
  split; [exact Hc|]. exists "".
  unfold harvested_listing, prompt_of. cbv zeta. now rewrite Hi.
Qed.

(** Every operation returns a text, never an exception, and what it sends
    to the backend is admissible for the call. *)
Lemma invoke_sends (w : World) (c : tool_call) (tr : trace) :
  exists (out : string) (new : trace),
    invoke w c tr = (Return out, (tr ++ new)%list) /\ sends_only w c tr new.
Proof.
  destruct c.
  - apply identify_industry_niches_sends.
  - apply drill_uvz_sends.
  - apply research_uvz_topic_sends.
  - apply validate_uvz_demand_sends.
  - apply generate_ebook_outline_sends.
  - apply expand_chapter_sends.
  - apply generate_chapter_content_sends.
  - apply competitive_analysis_sends.
  - apply generate_marketing_copy_sends.
Qed.

(** With no handle, no operation reaches the backend. *)
Lemma no_handle_no_backend_call (w : World) (c : tool_call) (tr : trace) :
  model w = None -> prompts (snd (invoke w c tr)) = prompts tr.
Proof.
  intro Hm. destruct (invoke_sends w c tr) as (out & new & Hr & Hs).
  rewrite Hr. simpl. rewrite prompts_app.
  destruct (prompts new) as [|p l] eqn:E; [apply app_nil_r|].
  destruct (Hs p) as [Hc _]; [rewrite E; now left|].
  unfold configured in Hc. rewrite Hm in Hc. discriminate.
Qed.

(* ===================================================================== *)
(** ** Prompt slots *)
(* ===================================================================== *)

(** C1, as amended: whatever the world answers, an operation returns a
    text and every prompt it sends is its template with each user
    free-text slot holding the sanitized argument (or the fixed default of
    a blank optional argument), each numeric slot the parsed count and the
    listing slot the listing harvested from the searches of this very run
    (the titles, snippets and links of the records, as they came), except
    that the [outline] of [generate_chapter_content] is embedded as passed;
    nothing is said of the [key_points] slot of [expand_chapter]. *)
Theorem prompt_slots_sanitized_but_outline (w : World) (c : tool_call)
    (tr : trace) :
  exists (out : string) (new : trace),
    invoke w c tr = (Return out, (tr ++ new)%list)
    /\ forall p : string,
         In p (prompts new) ->
         exists points : string,
           prompt_of c (harvested_listing w c tr) points (outline_of c)
           = Some p.
Proof.
  destruct (invoke_sends w c tr) as (out & new & Hr & Hs).
  exists out, new. split; [exact Hr|].
  intros p Hp. now destruct (Hs p Hp).
Qed.

(** C1, as stated, fails: [expand_chapter] sends its [key_points] and
    [generate_chapter_content] its [outline] as they were passed, so the
    prompt is not the one with every slot sanitized. *)
Lemma raw_key_points_and_outline_sent :
  let c1 := ExpandChapter (Some "Pricing") (Some "50% off <now>") in
  let c2 :=
    GenerateChapterContent (Some "Pricing") (Some "# Hook; why?") None in
  (prompts (snd (invoke online_world c1 []))
   = [expand_chapter_prompt "Pricing" "50% off <now>"]
   /\ sanitized_prompt c1 ""
      = Some (expand_chapter_prompt "Pricing" "50 off now")
   /\ expand_chapter_prompt "Pricing" "50% off <now>"
      <> expand_chapter_prompt "Pricing" "50 off now")
  /\ (prompts (snd (invoke online_world c2 []))
      = [generate_chapter_content_prompt "professional" "Pricing"
           "# Hook; why?"]
      /\ sanitized_prompt c2 ""
         = Some (generate_chapter_content_prompt "professional" "Pricing"
                   " Hook why")
      /\ generate_chapter_content_prompt "professional" "Pricing"
           "# Hook; why?"
         <> generate_chapter_content_prompt "professional" "Pricing"
              " Hook why").
Proof.
  cbv zeta. repeat split; try (vm_compute; reflexivity);
    apply String.eqb_neq; vm_compute; reflexivity.
Qed.

(* ===================================================================== *)
(** ** The copy-type dispatch *)
(* ===================================================================== *)

(** C5: with a backend configured, [generate_marketing_copy] called with
    title [T], zone [U] and copy type [bogus] returns the unknown-copy-type
    text and calls the backend zero times. *)
Theorem bogus_copy_type_rejected
    (m : trace -> string -> outcome string)
    (get : trace -> string -> outcome response)
    (parse : string -> outcome (list result_div)) (tr : trace) :
  generate_marketing_copy (mk_world (Some m) get parse) "T" "U" "bogus" tr
  = (Return
       "Error: Unknown copy type. Use: landing_page, email_sequence, or social_posts",
     tr).
Proof. reflexivity. Qed.

(** C10: [landing_page!] is none of the three literals, yet with a backend
    configured and title [T], zone [U], [generate_marketing_copy] sends the
    landing-page prompt to the backend and returns the marketing copy, not
    the unknown-copy-type text: the mode is sanitized before the dispatch. *)
Theorem sanitized_copy_type_dispatched
    (m : trace -> string -> outcome string)
    (get : trace -> string -> outcome response)
    (parse : string -> outcome (list result_div)) (tr : trace) :
  let w := mk_world (Some m) get parse in
  let prompt := landing_page_prompt "T" "U" in
  ("landing_page!" <> "landing_page"
   /\ "landing_page!" <> "email_sequence"
   /\ "landing_page!" <> "social_posts")
  /\ sanitize_input "landing_page!" = "landing_page"
  /\ generate_marketing_copy w "T" "U" "landing_page!" tr
     = (Return ("Marketing Copy: landing_page" ++ nl ++ nl ++ "Product: T"
                ++ nl ++ nl ++ backend_text (m tr prompt)),
        (tr ++ [GenerateContent prompt])%list)
  /\ fst (generate_marketing_copy w "T" "U" "landing_page!" tr)
     <> Return unknown_copy_type.
Proof.
  intros w prompt.
  assert (E : generate_marketing_copy w "T" "U" "landing_page!" tr
              = (Return ("Marketing Copy: landing_page" ++ nl ++ nl
                         ++ "Product: T" ++ nl ++ nl
                         ++ backend_text (m tr prompt)),
                 (tr ++ [GenerateContent prompt])%list)).
  { unfold generate_marketing_copy.
    change (negb (truthy (strip "T")) || negb (truthy (strip "U"))) with false.
    change (negb (configured w)) with false. cbv iota.
    change (sanitize_input "landing_page!") with "landing_page".
    change (sanitize_input "T") with "T".
    change (sanitize_input "U") with "U".
    change (marketing_prompt "landing_page" "T" "U") with (Some prompt).
    cbv zeta iota. unfold_monad.
    rewrite (gemini_analyze_configured w m prompt tr eq_refl). reflexivity. }
  repeat split; try discriminate; try reflexivity; [exact E|].
  rewrite E. simpl. discriminate.
Qed.

(* ===================================================================== *)
(** ** Numeric fields *)
(* ===================================================================== *)

(** C7: for topic [x], a blank [sources] makes [research_uvz_topic] list
    the first 10 results, exactly as [sources="10"] does, and
    [sources="abc"] gives the handled text of the parse error, prefixed
    [Error:], with no search made and nothing raised. *)
Theorem research_uvz_topic_sources (w : World) (tr : trace) :
  let q := "x guide tutorial best practices" in
  research_uvz_topic w "x" "" tr
  = research_uvz_topic_report w "x" 10 (search_results w q tr)
      (tr ++ [HttpGet (search_url q)])%list
  /\ research_uvz_topic w "x" "" tr = research_uvz_topic w "x" "10" tr
  /\ research_uvz_topic w "x" "abc" tr
     = (Return "Error: invalid literal for int() with base 10: 'abc'", tr)
  /\ String.prefix "Error:"
       "Error: invalid literal for int() with base 10: 'abc'" = true.
Proof.
  cbv zeta.
  pose proof (research_uvz_topic_run w "x" "" tr eq_refl) as H0.
  pose proof (research_uvz_topic_run w "x" "10" tr eq_refl) as H1.
  pose proof (research_uvz_topic_run w "x" "abc" tr eq_refl) as H2.
  cbv zeta in H0, H1, H2.
  change (sanitize_input "x") with "x" in H0, H1, H2.
  change (int_or_default "" 10) with (Return 10%Z) in H0.
  change (int_or_default "10" 10) with (Return 10%Z) in H1.
  change (int_or_default "abc" 10)
    with (@Raise Z (ValueError
                      "invalid literal for int() with base 10: 'abc'")) in H2.
  cbv iota in H0, H1, H2.
  split; [exact H0|].
  split; [now rewrite H0, H1|].
  split; [exact H2 | reflexivity].
Qed.

(* ===================================================================== *)
(** ** The report stages, spelled out *)
(* ===================================================================== *)


Lemma competitive_analysis_report_eq (w : World) (uvz_clean : string)
    (n : Z) (rs : list SearchResult) (tr : trace) :
  competitive_analysis_report w uvz_clean n rs tr
  = match rs with
    | [] => (Return ("No competitors found for: " ++ uvz_clean), tr)
    | _ :: _ =>
        let listing := source_lines (slice_to n rs) in
        match model w with
        | None =>
            (Return ("Competitors: " ++ uvz_clean ++ nl ++ nl ++ listing), tr)
        | Some m =>
            let p := competitive_analysis_prompt uvz_clean listing in
            (Return ("Competitive Analysis: " ++ uvz_clean ++ nl ++ nl
                     ++ backend_text (m tr p) ++ nl ++ nl
                     ++ "Competitors:" ++ nl ++ listing),
             (tr ++ [GenerateContent p])%list)
        end
    end.
Proof.
  unfold competitive_analysis_report. destruct rs as [|r l]; [reflexivity|].
  unfold configured. destruct (model w) as [m|] eqn:Hm; [|reflexivity].
  cbv zeta. unfold_monad.
  now rewrite (gemini_analyze_configured w m _ tr Hm).
Qed.

Lemma validate_uvz_demand_report_eq (w : World) (uvz_clean : string)
    (all_results : list SearchResult) (tr : trace) :
  validate_uvz_demand_report w uvz_clean all_results tr
  = match all_results with
    | [] => (Return ("Limited demand signals found for: " ++ uvz_clean), tr)
    | _ :: _ =>
        let findings := signal_lines all_results in
        match model w with
        | None =>
            (Return ("Market Signals: " ++ uvz_clean ++ nl ++ nl ++ findings),
             tr)
        | Some m =>
            let p := validate_uvz_demand_prompt uvz_clean findings in
            (Return ("Demand Validation: " ++ uvz_clean ++ nl ++ nl
                     ++ backend_text (m tr p) ++ nl ++ nl
                     ++ "Raw Signals:" ++ nl ++ findings),
             (tr ++ [GenerateContent p])%list)
        end
    end.
Proof.
  unfold validate_uvz_demand_report.
  destruct all_results as [|r l]; [reflexivity|].
  unfold configured. destruct (model w) as [m|] eqn:Hm; [|reflexivity].
  cbv zeta. unfold_monad.
  now rewrite (gemini_analyze_configured w m _ tr Hm).
Qed.


(* ===================================================================== *)
(** ** No credential *)
(* ===================================================================== *)




(* ===================================================================== *)
(** ** Search aggregation *)
(* ===================================================================== *)

(** C8, as amended: for a non-blank description, [validate_uvz_demand]
    issues exactly three searches in sequence ([... problems],
    [... solutions needed], [how to ...]), keeps the first 3 results of each
    and reports on their concatenation in query order, nothing removed;
    [competitive_analysis] issues a single search (none when its count does
    not parse) and lists, and sends to the backend, the results cut at the
    requested count [num_competitors] (5 when the field is blank), not at
    3. *)
Theorem search_aggregation (w : World) (uvz competitors : string)
    (tr : trace) :
  blank uvz = false ->
  let uvz_clean := sanitize_input uvz in
  let q1 := uvz_clean ++ " problems" in
  let q2 := uvz_clean ++ " solutions needed" in
  let q3 := "how to " ++ uvz_clean in
  let t1 := (tr ++ [HttpGet (search_url q1)])%list in
  let t2 := (t1 ++ [HttpGet (search_url q2)])%list in
  let t3 := (t2 ++ [HttpGet (search_url q3)])%list in
  let all_results :=
    (firstn 3 (search_results w q1 tr)
     ++ firstn 3 (search_results w q2 t1)
     ++ firstn 3 (search_results w q3 t2))%list in
  let q := uvz_clean ++ " courses guides products solutions" in
  let tc := (tr ++ [HttpGet (search_url q)])%list in
  let rs := search_results w q tr in
  (validate_uvz_demand w uvz tr
   = validate_uvz_demand_report w uvz_clean all_results t3
   /\ searches (snd (validate_uvz_demand w uvz tr))
      = (searches tr ++ [search_url q1; search_url q2; search_url q3])%list
   /\ validate_uvz_demand w uvz tr
      = match all_results with
        | [] =>
            (Return ("Limited demand signals found for: " ++ uvz_clean), t3)
        | _ :: _ =>
            let findings := signal_lines all_results in
            match model w with
            | None =>
                (Return ("Market Signals: " ++ uvz_clean ++ nl ++ nl
                         ++ findings), t3)
            | Some m =>
                let p := validate_uvz_demand_prompt uvz_clean findings in
                (Return ("Demand Validation: " ++ uvz_clean ++ nl ++ nl
                         ++ backend_text (m t3 p) ++ nl ++ nl
                         ++ "Raw Signals:" ++ nl ++ findings),
                 (t3 ++ [GenerateContent p])%list)
            end
        end)
  /\ (competitive_analysis w uvz competitors tr
      = match int_or_default competitors 5 with
        | Return n =>
            competitive_analysis_report w uvz_clean n rs tc
        | Raise e => (Return ("Error: " ++ str_exn e), tr)
        end
      /\ searches (snd (competitive_analysis w uvz competitors tr))
         = (searches tr
            ++ match int_or_default competitors 5 with
               | Return _ => [search_url q]
               | Raise _ => []
               end)%list
      /\ competitive_analysis w uvz competitors tr
         = match int_or_default competitors 5 with
           | Raise e => (Return ("Error: " ++ str_exn e), tr)
           | Return n =>
               match rs with
               | [] =>
                   (Return ("No competitors found for: " ++ uvz_clean), tc)
               | _ :: _ =>
                   let listing := source_lines (slice_to n rs) in
                   match model w with
                   | None =>
                       (Return ("Competitors: " ++ uvz_clean ++ nl ++ nl
                                ++ listing), tc)
                   | Some m =>
                       let p :=
                         competitive_analysis_prompt uvz_clean listing in
                       (Return ("Competitive Analysis: " ++ uvz_clean
                                ++ nl ++ nl ++ backend_text (m tc p)
                                ++ nl ++ nl ++ "Competitors:" ++ nl
                                ++ listing),
                        (tc ++ [GenerateContent p])%list)
                   end
               end
           end
      /\ (blank competitors = true -> int_or_default competitors 5 = Return 5%Z)
      /\ (forall n : Z, (0 <= n)%Z -> slice_to n rs = firstn (Z.to_nat n) rs)).
Proof.
  intros Hb uvz_clean q1 q2 q3 t1 t2 t3 all_results q tc rs.
  pose proof (validate_uvz_demand_run w uvz tr Hb) as Hv.
  pose proof (competitive_analysis_run w uvz competitors tr Hb) as Hc.
  cbv zeta in Hv, Hc.
  fold uvz_clean in Hv, Hc. fold q1 q2 q3 in Hv. fold t1 in Hv. fold t2 in Hv.
  fold t3 in Hv. fold all_results in Hv. fold q in Hc. fold tc rs in Hc.
  split; (split; [assumption|]).
  - split.
    + rewrite Hv.
      destruct (validate_uvz_demand_report_run w uvz_clean all_results t3)
        as (out & new & Hr & Hs & _).
      rewrite Hr. simpl snd. rewrite searches_app, Hs, app_nil_r.
      unfold t3, t2, t1. rewrite !searches_app. simpl.
      now rewrite <- !app_assoc.
    + rewrite Hv. apply validate_uvz_demand_report_eq.
  - split; [|split; [|split]].
    + rewrite Hc.
      destruct (int_or_default competitors 5) as [n|e];
        [|simpl; now rewrite app_nil_r].
      destruct (competitive_analysis_report_run w uvz_clean n rs tc)
        as (out & new & Hr & Hs & _).
      rewrite Hr. simpl snd. rewrite searches_app, Hs, app_nil_r.
      unfold tc. now rewrite searches_app.
    + rewrite Hc. destruct (int_or_default competitors 5) as [n|e];
        [apply competitive_analysis_report_eq | reflexivity].
    + intro Hbc. unfold int_or_default. now rewrite truthy_strip, Hbc.
    + intros n Hn. unfold slice_to.
      destruct (Z.ltb_spec n 0); [lia | reflexivity].
Qed.

(** The searches of both operations for [yoga], in the sample world, and
    the competitor listing cut at 1. *)
Lemma search_aggregation_witness :
  blank "yoga" = false
  /\ searches (snd (validate_uvz_demand online_world "yoga" []))
     = [search_url "yoga problems"; search_url "yoga solutions needed";
        search_url "how to yoga"]
  /\ searches (snd (competitive_analysis online_world "yoga" "1" []))
     = [search_url "yoga courses guides products solutions"]
  /\ prompts (snd (competitive_analysis online_world "yoga" "1" []))
     = [competitive_analysis_prompt "yoga"
          ("1. Yoga for Desk Workers" ++ nl ++ "Stretch at your desk." ++ nl
           ++ "https://example.org/yoga")].
Proof.
  split; [reflexivity|].
  destruct (search_aggregation online_world "yoga" "1" [] eq_refl)
    as [(_ & H1 & _) (_ & H2 & H3 & _)].
  split; [exact H1|]. split; [exact H2|].
  exact (f_equal (fun r => prompts (snd r)) H3).
Defined.

(** C8, as stated, fails for [competitive_analysis]: it issues one search,
    not two or three, and it cuts the results at the requested count (here
    1), not at 3. *)
Lemma competitive_analysis_single_search :
  length (searches (snd (competitive_analysis online_world "yoga" "1" [])))
  = 1
  /\ competitive_analysis online_world "yoga" "1" []
     = competitive_analysis_report online_world "yoga" 1
         (search_results online_world
            "yoga courses guides products solutions" [])
         [HttpGet (search_url "yoga courses guides products solutions")]
  /\ length (search_results online_world
               "yoga courses guides products solutions" []) = 2.
Proof. repeat split. Qed.

(** Results that come back under more than one query are listed once per
    query: nothing is deduplicated. *)
Example validate_uvz_demand_keeps_duplicates :
  fst (validate_uvz_demand unconfigured_world "yoga" [])
  = Return ("Market Signals: yoga" ++ nl ++ nl
            ++ signal_lines
                 (let r := collect_results sample_divs in r ++ r ++ r)%list).
Proof. reflexivity. Qed.

(* ===================================================================== *)
(** ** End to end *)
(* ===================================================================== *)

(** With the backend answering [MOCK_ANALYSIS], the industry analysis of
    [pet grooming] at depth 2 carries the industry, the analysis and the
    closing pointer to [drill_uvz]. *)
Example identify_industry_niches_end_to_end :
  fst (invoke online_world
         (IdentifyIndustryNiches (Some "pet grooming") (Some "2")) [])
  = Return ("Industry Analysis: pet grooming" ++ nl ++ nl ++ "MOCK_ANALYSIS"
            ++ nl ++ nl ++ "Next Steps: Use drill_uvz to go deeper").
Proof. reflexivity. Qed.

(* ===================================================================== *)
(** ** The shape of every run *)
(* ===================================================================== *)

(** A report stage: no search, at most one prompt. *)
Ltac report_shape w :=
  let Hc := fresh "Hc" in
  let m := fresh "m" in
  let Hm := fresh "Hm" in
  match goal with
  | |- context [match ?rs with [] => _ | _ :: _ => _ end] =>
      destruct rs as [|? ?];
      [ eexists _, []; simpl; rewrite app_nil_r; split; [reflexivity | now left]
      | destruct (configured w) eqn:Hc;
        [ destruct (configured_true _ Hc) as [m Hm]; unfold_monad;
          rewrite (gemini_analyze_configured _ _ _ _ Hm);
          eexists _, [_]; split; [reflexivity|];
          right; eexists; repeat split; reflexivity
        | eexists _, []; simpl; rewrite app_nil_r;
          split; [reflexivity | now left] ] ]
  end.

Lemma research_uvz_topic_report_shape (w : World) (topic_clean : string)
    (n : Z) (results_data : list SearchResult) (tr : trace) :
  exists (out : string) (ps : list string),
    research_uvz_topic_report w topic_clean n results_data tr
    = (Return out, (tr ++ map GenerateContent ps)%list)
    /\ (ps = []
        \/ exists p, ps = [p] /\ configured w = true
                     /\ String.prefix "Error:" out = false).
Proof. unfold research_uvz_topic_report. report_shape w. Qed.

Lemma competitive_analysis_report_shape (w : World) (uvz_clean : string)
    (n : Z) (results_data : list SearchResult) (tr : trace) :
  exists (out : string) (ps : list string),
    competitive_analysis_report w uvz_clean n results_data tr
    = (Return out, (tr ++ map GenerateContent ps)%list)
    /\ (ps = []
        \/ exists p, ps = [p] /\ configured w = true
                     /\ String.prefix "Error:" out = false).
Proof. unfold competitive_analysis_report. report_shape w. Qed.

Lemma validate_uvz_demand_report_shape (w : World) (uvz_clean : string)
    (all_results : list SearchResult) (tr : trace) :
  exists (out : string) (ps : list string),
    validate_uvz_demand_report w uvz_clean all_results tr
    = (Return out, (tr ++ map GenerateContent ps)%list)
    /\ (ps = []
        \/ exists p, ps = [p] /\ configured w = true
                     /\ String.prefix "Error:" out = false).
Proof. unfold validate_uvz_demand_report. report_shape w. Qed.

(** Closes a branch that returns without any call. *)
Ltac quiet :=
  eexists _, [], []; simpl; rewrite app_nil_r;
  split; [reflexivity | split; now left].

(** Closes a branch in which a configured backend answers one prompt. *)
Ltac one_call Hc Hm :=
  unfold_monad; rewrite (gemini_analyze_configured _ _ _ _ Hm);
  eexists _, [], [_]; split; [reflexivity|];
  split; [now left|]; right; eexists; repeat split; reflexivity.

Ltac shape_guards w :=
  match goal with
  | |- context [negb (truthy (strip ?s))] =>
      destruct (negb (truthy (strip s))); simpl; [quiet | shape_guards w]
  | |- context [negb (configured w)] =>
      let Hc := fresh "Hc" in
      let m := fresh "m" in
      let Hm := fresh "Hm" in
      destruct (configured w) eqn:Hc; simpl;
      [destruct (configured_true _ Hc) as [m Hm] | quiet]
  | _ => idtac
  end.

Lemma invoke_shape (w : World) (c : tool_call) (tr : trace) :
  run_shape w c tr (invoke w c tr).
Proof.
  unfold run_shape. destruct c.
  - (* identify_industry_niches *)
    unfold_ops. shape_guards w.
    destruct (int_or_default (kwarg "3" depth) 3) as [n|e] eqn:Hi.
    + unfold int_or at 1. unfold lift, bind at 1, try_except. rewrite Hi.
      unfold bind, ret. rewrite (gemini_analyze_configured _ _ _ _ Hm).
      eexists _, [], [_]; split; [reflexivity|].
      split; [now left|]. right; eexists; repeat split; reflexivity.
    + unfold_monad. rewrite Hi. quiet.
  - (* drill_uvz *)
    unfold_ops. shape_guards w. one_call Hc Hm.
  - (* research_uvz_topic *)
    unfold invoke.
    destruct (blank_cases (kwarg "" topic)) as [[Hb Hg]|[Hb Hg]].
    { unfold research_uvz_topic. rewrite Hg. quiet. }
    rewrite (research_uvz_topic_run w _ _ tr Hb). cbv zeta.
    destruct (int_or_default (kwarg "10" sources) 10) as [n|e]; [|quiet].
    match goal with
    | |- context [research_uvz_topic_report w ?u ?k ?rs ?t] =>
        destruct (research_uvz_topic_report_shape w u k rs t)
          as (out & ps & Hr & Hp)
    end.
    rewrite Hr. rewrite <- app_assoc.
    exists out, [search_url
                   (sanitize_input (kwarg "" topic)
                    ++ " guide tutorial best practices")], ps.
    split; [reflexivity|]. split; [now right | exact Hp].
  - (* validate_uvz_demand *)
    unfold invoke.
    destruct (blank_cases (kwarg "" uvz_description)) as [[Hb Hg]|[Hb Hg]].
    { unfold validate_uvz_demand. rewrite Hg. quiet. }
    rewrite (validate_uvz_demand_run w _ tr Hb). cbv zeta.
    match goal with
    | |- context [validate_uvz_demand_report w ?u ?all ?t] =>
        destruct (validate_uvz_demand_report_shape w u all t)
          as (out & ps & Hr & Hp)
    end.
    rewrite Hr. rewrite <- !app_assoc.
    exists out,
      (map search_url
         (validate_uvz_demand_queries
            (sanitize_input (kwarg "" uvz_description)))), ps.
    split; [reflexivity|]. split; [now right | exact Hp].
  - (* generate_ebook_outline *)
    unfold_ops. shape_guards w.
    destruct (int_or_default (kwarg "50" length) 50) as [n|e] eqn:Hi.
    + unfold int_or at 1. unfold lift, bind at 1, try_except. rewrite Hi.
      unfold bind, ret. rewrite (gemini_analyze_configured _ _ _ _ Hm).
      eexists _, [], [_]; split; [reflexivity|].
      split; [now left|]. right; eexists; repeat split; reflexivity.
    + unfold_monad. rewrite Hi. quiet.
  - (* expand_chapter *)
    unfold_ops. shape_guards w. one_call Hc Hm.
  - (* generate_chapter_content *)
    unfold_ops.
    destruct (negb (truthy (strip (kwarg "" chapter_title)))
              || negb (truthy (strip (kwarg "" outline)))); simpl; [quiet|].
    shape_guards w. one_call Hc Hm.
  - (* competitive_analysis *)
    unfold invoke.
    destruct (blank_cases (kwarg "" uvz)) as [[Hb Hg]|[Hb Hg]].
    { unfold competitive_analysis. rewrite Hg. quiet. }
    rewrite (competitive_analysis_run w _ _ tr Hb). cbv zeta.
    destruct (int_or_default (kwarg "5" competitors) 5) as [n|e]; [|quiet].
    match goal with
    | |- context [competitive_analysis_report w ?u ?k ?rs ?t] =>
        destruct (competitive_analysis_report_shape w u k rs t)
          as (out & ps & Hr & Hp)
    end.
    rewrite Hr. rewrite <- app_assoc.
    exists out, [search_url
                   (sanitize_input (kwarg "" uvz)
                    ++ " courses guides products solutions")], ps.
    split; [reflexivity|]. split; [now right | exact Hp].
  - (* generate_marketing_copy *)
    unfold_ops.
    destruct (negb (truthy (strip (kwarg "" product_title)))
              || negb (truthy (strip (kwarg "" uvz)))); simpl; [quiet|].
    shape_guards w.
    destruct (marketing_prompt
                (sanitize_input (kwarg "landing_page" copy_type))
                (sanitize_input (kwarg "" product_title))
                (sanitize_input (kwarg "" uvz))) as [prompt|] eqn:Hp.
    + one_call Hc Hm.
    + unfold_monad. quiet.
Qed.

Lemma prompts_map_get (urls : list string) : prompts (map HttpGet urls) = [].
Proof. induction urls as [|u l IH]; simpl; [reflexivity | exact IH]. Qed.

Lemma prompts_map_generate (ps : list string) :
  prompts (map GenerateContent ps) = ps.
Proof. induction ps as [|p l IH]; simpl; [reflexivity | now rewrite IH]. Qed.

Lemma searches_map_get (urls : list string) :
  searches (map HttpGet urls) = urls.
Proof. induction urls as [|u l IH]; simpl; [reflexivity | now rewrite IH]. Qed.

Lemma searches_map_generate (ps : list string) :
  searches (map GenerateContent ps) = [].
Proof. induction ps as [|p l IH]; simpl; [reflexivity | exact IH]. Qed.

(** X1: called with text arguments (each one given as a string or left
    out), no operation lets an exception cross the tool boundary: whatever
    the search endpoint, the parser and the backend do, each of the nine
    operations hands back a text. *)
Theorem invoke_returns_text (w : World) (c : tool_call) (tr : trace) :
  exists out : string, fst (invoke w c tr) = Return out.
Proof.
  destruct (invoke_shape w c tr) as (out & urls & ps & Hr & _).
  exists out. now rewrite Hr.
Qed.

(** X2: the calls of one invocation: the earlier trace is kept, then come
    the searches, then at most one prompt.  The searches are none or exactly
    the queries of the operation, so never more than three, and the six
    operations without a search stage never touch the network. *)
Theorem invoke_call_budget (w : World) (c : tool_call) (tr : trace) :
  exists urls ps : list string,
    snd (invoke w c tr)
    = (tr ++ map HttpGet urls ++ map GenerateContent ps)%list
    /\ (urls = [] \/ urls = map search_url (queries_of c))
    /\ length urls <= 3
    /\ length ps <= 1
    /\ (ai_dependent c = true -> urls = []).
Proof.
  destruct (invoke_shape w c tr) as (out & urls & ps & Hr & Hu & Hp).
  exists urls, ps. rewrite Hr.
  split; [reflexivity|]. split; [exact Hu|].
  split; [|split].
  - destruct Hu as [->| ->]; [simpl; lia|].
    rewrite length_map. destruct c; simpl; lia.
  - destruct Hp as [->|(p & -> & _)]; simpl; lia.
  - intro Hai. destruct Hu as [->| ->]; [reflexivity|].
    destruct c; simpl in *; try reflexivity; discriminate.
Qed.

(** X4: whenever an invocation reached the backend, its answer is a
    report and does not start with [Error:], even when the backend itself
    failed: the failure text sits inside the report. *)
Theorem backend_call_gives_report (w : World) (c : tool_call) (tr tr' : trace)
    (out : string) :
  invoke w c tr = (Return out, tr') ->
  prompts tr' <> prompts tr ->
  String.prefix "Error:" out = false.
Proof.
  intros Hrun Hne.
  destruct (invoke_shape w c tr) as (out' & urls & ps & Hr & _ & Hp).
  rewrite Hrun in Hr. injection Hr as -> ->.
  destruct Hp as [->|(p & _ & _ & Hpre)]; [|exact Hpre].
  exfalso. apply Hne.
  rewrite !prompts_app, prompts_map_get. simpl. now rewrite app_nil_r.
Qed.

(** A failing backend under [drill_uvz]: the error is inside the report. *)
Lemma backend_call_gives_report_witness :
  invoke failing_world (DrillUvz (Some "solo coaches") None) []
  = (Return ("UVZ Deep Dive: solo coaches" ++ nl ++ nl
             ++ "Error: quota exceeded"),
     [GenerateContent
        (drill_uvz_prompt "solo coaches" "general opportunities")])
  /\ String.prefix "Error:"
       ("UVZ Deep Dive: solo coaches" ++ nl ++ nl ++ "Error: quota exceeded")
     = false.
Proof.
  split; [reflexivity|].
  apply (backend_call_gives_report failing_world
           (DrillUvz (Some "solo coaches") None) []
           [GenerateContent
              (drill_uvz_prompt "solo coaches" "general opportunities")]).
  - reflexivity.
  - discriminate.
Defined.

(* ===================================================================== *)
(** ** More on the sanitizer *)
(* ===================================================================== *)

Lemma forallb_str_app (p : ascii -> bool) (a b : string) :
  forallb_str p (a ++ b) = forallb_str p a && forallb_str p b.
Proof.
  induction a as [|c r IH]; simpl; [reflexivity|].
  now rewrite IH, andb_assoc.
Qed.

Lemma sanitize_input_step (c : ascii) (r : string) :
  sanitize_input (String c r)
  = if in_pattern_set c then String c (sanitize_input r) else sanitize_input r.
Proof.
  unfold sanitize_input. simpl Re.sub.
  rewrite <- kept_pattern_set. unfold kept.
  destruct (Re.class_matches sanitize_pattern c); reflexivity.
Qed.

Lemma sanitize_input_allowed (x : string) :
  forallb_str in_pattern_set (sanitize_input x) = true.
Proof.
  induction x as [|c r IH]; [reflexivity|].
  rewrite sanitize_input_step.
  destruct (in_pattern_set c) eqn:E; [simpl; now rewrite E|exact IH].
Qed.

Lemma sanitize_input_length (x : string) :
  String.length (sanitize_input x) <= String.length x.
Proof.
  induction x as [|c r IH]; [simpl; lia|].
  rewrite sanitize_input_step. destruct (in_pattern_set c); simpl; lia.
Qed.

(** X14: the sanitizer leaves a text unchanged exactly when every
    character of it is a word character, whitespace, hyphen, comma or
    period; and it never makes a text longer. *)
Theorem sanitize_input_fixed_points (x : string) :
  (sanitize_input x = x <-> forallb_str in_pattern_set x = true)
  /\ String.length (sanitize_input x) <= String.length x.
Proof.
  split; [|apply sanitize_input_length].
  split.
  - intro H. rewrite <- H. apply sanitize_input_allowed.
  - induction x as [|c r IH]; [reflexivity|].
    simpl. intro H. apply andb_prop in H. destruct H as [Hc Hr].
    rewrite sanitize_input_step, Hc. now rewrite (IH Hr).
Qed.

(** X15: sanitizing is done character by character: the sanitized form of
    a concatenation is the concatenation of the sanitized forms. *)
Theorem sanitize_input_app (a b : string) :
  sanitize_input (a ++ b) = sanitize_input a ++ sanitize_input b.
Proof.
  induction a as [|c r IH]; [reflexivity|].
  change (String c r ++ b) with (String c (r ++ b)).
  rewrite !sanitize_input_step, IH.
  destruct (in_pattern_set c); reflexivity.
Qed.

(** X3: every search an operation issues is for a query made of sanitized
    text and a fixed suffix or prefix: each character of the query is a word
    character, whitespace, hyphen, comma or period, so no argument can add
    a [&], [#], [?], [=], [%], [/] or [+] to the request. *)
Theorem search_queries_sanitized (w : World) (c : tool_call) (tr : trace) :
  exists qs : list string,
    searches (snd (invoke w c tr))
    = (searches tr ++ map search_url qs)%list
    /\ forallb (forallb_str in_pattern_set) qs = true
    /\ existsb_str in_pattern_set "&#?=%/+" = false.
Proof.
  destruct (invoke_shape w c tr) as (out & urls & ps & Hr & Hu & _).
  rewrite Hr. simpl snd.
  rewrite !searches_app, searches_map_get, searches_map_generate, app_nil_r.
  destruct Hu as [->| ->].
  - exists []. repeat split.
  - exists (queries_of c). split; [reflexivity|]. split; [|reflexivity].
    destruct c; try reflexivity; simpl;
      rewrite ?forallb_str_app, ?sanitize_input_allowed; reflexivity.
Qed.

(* ===================================================================== *)
(** ** More on the search *)
(* ===================================================================== *)

Lemma collect_results_length (divs : list result_div) :
  length (collect_results divs) = length (filter has_title divs).
Proof.
  induction divs as [|d l IH]; [reflexivity|].
  simpl. unfold has_title. destruct (title_elem d); simpl; now rewrite IH.
Qed.

Lemma web_search_free_ok (w : World) (query : string) (tr : trace)
    (resp : response) (divs : list result_div) :
  http_get w tr (search_url query) = Return resp ->
  is_success resp = true ->
  find_all_result w (text resp) = Return divs ->
  web_search_free w query tr
  = (Return (json_dumps (collect_results (firstn 10 divs))),
     (tr ++ [HttpGet (search_url query)])%list).
Proof.
  intros Hg Hs Hp.
  unfold web_search_free, try_except, bind, client_get,
    raise_for_status, find_all, lift, ret, raise.
  rewrite Hg. cbv iota beta. rewrite Hs. cbv iota beta. rewrite Hp.
  reflexivity.
Qed.

Lemma search_results_bound (w : World) (query : string) (tr : trace) :
  length (search_results w query tr) <= 10.
Proof.
  destruct (http_get w tr (search_url query)) as [resp|e] eqn:Hg.
  - destruct (is_success resp) eqn:Hs.
    + destruct (find_all_result w (text resp)) as [divs|e] eqn:Hp.
      * unfold search_results.
        rewrite (web_search_free_ok w query tr resp divs Hg Hs Hp).
        cbv [fst json_loads json_dumps].
        rewrite collect_results_length.
        pose proof (filter_length_le has_title (firstn 10 divs)).
        pose proof (firstn_le_length 10 divs). lia.
      * unfold search_results, web_search_free, try_except, bind, client_get,
          raise_for_status, find_all, lift, ret, raise.
        rewrite Hg. cbv iota beta. rewrite Hs. cbv iota beta. rewrite Hp.
        simpl. lia.
    + unfold search_results, web_search_free, try_except, bind, client_get,
        raise_for_status, find_all, lift, ret, raise.
      rewrite Hg. cbv iota beta. rewrite Hs. simpl. lia.
  - unfold search_results, web_search_free, try_except, bind, client_get.
    rewrite Hg. simpl. lia.
Qed.

(** X5: a search makes exactly one GET, to the endpoint with the query
    appended as given, raises nothing whatever the endpoint or the parser
    does, and hands back at most 10 records. *)
Theorem web_search_free_bounded (w : World) (query : string) (tr : trace) :
  exists results : list SearchResult,
    web_search_free w query tr
    = (Return (json_dumps results),
       (tr ++ [HttpGet ("https://html.duckduckgo.com/html/?q=" ++ query)])%list)
    /\ length results <= 10.
Proof.
  exists (search_results w query tr). split.
  - apply web_search_free_run.
  - apply search_results_bound.
Qed.

(** X6: on a 2xx answer that parses, the search returns the records of the
    titled blocks among the first ten result blocks, in document order.
    The cut at ten comes before the untitled blocks are dropped, so the
    count is that of the titled blocks among the first ten, and a missing
    href or snippet gives an empty text. *)
Theorem web_search_free_success (w : World) (query : string) (tr : trace)
    (resp : response) (divs : list result_div) :
  http_get w tr (search_url query) = Return resp ->
  is_success resp = true ->
  find_all_result w (text resp) = Return divs ->
  web_search_free w query tr
  = (Return (json_dumps (collect_results (firstn 10 divs))),
     (tr ++ [HttpGet (search_url query)])%list)
  /\ length (collect_results (firstn 10 divs))
     = length (filter has_title (firstn 10 divs))
  /\ (forall r, In r (collect_results (firstn 10 divs)) ->
      exists d t,
        In d (firstn 10 divs) /\ title_elem d = Some t
        /\ title r = get_text t
        /\ link r = match href t with Some h => h | None => "" end
        /\ snippet r = match snippet_elem d with
                       | Some s => get_text s
                       | None => ""
                       end).
Proof.
  intros Hg Hs Hp. split; [|split].
  - exact (web_search_free_ok w query tr resp divs Hg Hs Hp).
  - apply collect_results_length.
  - generalize (firstn 10 divs). intro l.
    induction l as [|d l IH]; intros r Hr; [destruct Hr|].
    simpl in Hr. destruct (title_elem d) as [t|] eqn:Ht.
    + destruct Hr as [<-|Hr].
      * exists d, t. simpl. repeat split; trivial. now left.
      * destruct (IH r Hr) as (d' & t' & Hin & H').
        exists d', t'. split; [now right | exact H'].
    + destruct (IH r Hr) as (d' & t' & Hin & H').
      exists d', t'. split; [now right | exact H'].
Qed.

(** The success path on the sample page: three blocks, one untitled. *)
Lemma web_search_free_success_witness :
  web_search_free online_world "yoga" []
  = (Return (json_dumps
               [mk_result "Yoga for Desk Workers" "https://example.org/yoga"
                  "Stretch at your desk.";
                mk_result "Back Pain Guide" "" ""]),
     [HttpGet (search_url "yoga")]).
Proof.
  exact (proj1 (web_search_free_success online_world "yoga" []
                  (mk_response 200 "" "<html>") sample_divs
                  eq_refl eq_refl eq_refl)).
Defined.

(* ===================================================================== *)
(** ** More on the backend adapter *)
(* ===================================================================== *)

(** X7: the adapter isolates the backend: with a handle configured it
    makes exactly one call; the text of the answer is passed on as it is,
    and an exception of the backend becomes the text [Error: ] followed by
    its message instead of propagating. *)
Theorem gemini_analyze_isolates_failure (w : World)
    (m : trace -> string -> outcome string) (prompt : string) (tr : trace) :
  model w = Some m ->
  (forall t, m tr prompt = Return t ->
     gemini_analyze w prompt tr
     = (Return t, (tr ++ [GenerateContent prompt])%list))
  /\ (forall e, m tr prompt = Raise e ->
       gemini_analyze w prompt tr
       = (Return ("Error: " ++ str_exn e),
          (tr ++ [GenerateContent prompt])%list)).
Proof.
  intro Hm. split; intros x Hx;
    rewrite (gemini_analyze_configured w m prompt tr Hm), Hx; reflexivity.
Qed.

Lemma gemini_analyze_isolates_failure_witness :
  gemini_analyze failing_world "prompt" []
  = (Return "Error: quota exceeded", [GenerateContent "prompt"]).
Proof.
  exact (proj2 (gemini_analyze_isolates_failure failing_world failing_backend
                  "prompt" [] eq_refl)
           (BackendError "quota exceeded") eq_refl).
Defined.

(* ===================================================================== *)
(** ** Degraded runs of the search-backed operations *)
(* ===================================================================== *)

(** X8: [research_uvz_topic] with a topic and a count that parses: when
    the search hands back nothing (a failure or an empty page) the answer
    is the no-results text and the backend is not called, configured or
    not; when there are results but no credential, the answer is the raw
    source listing, not the not-configured error. *)
Theorem research_uvz_topic_degrades (w : World) (topic sources : string)
    (n : Z) (tr : trace) :
  blank topic = false ->
  int_or_default sources 10 = Return n ->
  let topic_clean := sanitize_input topic in
  let q := topic_clean ++ " guide tutorial best practices" in
  let rs := search_results w q tr in
  let t1 := (tr ++ [HttpGet (search_url q)])%list in
  (rs = [] ->
   research_uvz_topic w topic sources tr
   = (Return ("No search results found for: " ++ topic_clean), t1))
  /\ (rs <> [] -> model w = None ->
      research_uvz_topic w topic sources tr
      = (Return ("Research Results: " ++ topic_clean ++ nl ++ nl
                 ++ "Sources:" ++ nl ++ source_lines (slice_to n rs)), t1)).
Proof.
  intros Hb Hi topic_clean q rs t1.
  pose proof (research_uvz_topic_run w topic sources tr Hb) as H.
  cbv zeta in H. rewrite Hi in H. fold topic_clean q rs t1 in H.
  rewrite H. unfold research_uvz_topic_report. split.
  - intros ->. reflexivity.
  - intros Hne Hm. destruct rs as [|r l]; [now elim Hne|].
    unfold configured. rewrite Hm. reflexivity.
Qed.

Lemma research_uvz_topic_degrades_witness :
  research_uvz_topic offline_world "yoga!" "" []
  = (Return "No search results found for: yoga",
     [HttpGet (search_url "yoga guide tutorial best practices")]).
Proof.
  exact (proj1 (research_uvz_topic_degrades offline_world "yoga!" "" 10 []
                  eq_refl eq_refl) eq_refl).
Defined.

(** X9: [competitive_analysis] likewise: nothing found gives the
    no-competitors text without a backend call; results without a
    credential give the raw competitor listing. *)
Theorem competitive_analysis_degrades (w : World) (uvz competitors : string)
    (n : Z) (tr : trace) :
  blank uvz = false ->
  int_or_default competitors 5 = Return n ->
  let uvz_clean := sanitize_input uvz in
  let q := uvz_clean ++ " courses guides products solutions" in
  let rs := search_results w q tr in
  let t1 := (tr ++ [HttpGet (search_url q)])%list in
  (rs = [] ->
   competitive_analysis w uvz competitors tr
   = (Return ("No competitors found for: " ++ uvz_clean), t1))
  /\ (rs <> [] -> model w = None ->
      competitive_analysis w uvz competitors tr
      = (Return ("Competitors: " ++ uvz_clean ++ nl ++ nl
                 ++ source_lines (slice_to n rs)), t1)).
Proof.
  intros Hb Hi uvz_clean q rs t1.
  pose proof (competitive_analysis_run w uvz competitors tr Hb) as H.
  cbv zeta in H. rewrite Hi in H. fold uvz_clean q rs t1 in H.
  rewrite H. unfold competitive_analysis_report. split.
  - intros ->. reflexivity.
  - intros Hne Hm. destruct rs as [|r l]; [now elim Hne|].
    unfold configured. rewrite Hm. reflexivity.
Qed.

Lemma competitive_analysis_degrades_witness :
  competitive_analysis unconfigured_world "yoga" "1" []
  = (Return ("Competitors: yoga" ++ nl ++ nl
             ++ "1. Yoga for Desk Workers" ++ nl ++ "Stretch at your desk."
             ++ nl ++ "https://example.org/yoga"),
     [HttpGet (search_url "yoga courses guides products solutions")]).
Proof.
  refine (proj2 (competitive_analysis_degrades unconfigured_world "yoga" "1"
                   1 [] eq_refl eq_refl) _ eq_refl).
  discriminate.
Defined.

(** X10: [validate_uvz_demand] gathers at most nine signals; when all
    three searches hand back nothing the answer is the limited-signals text
    and the backend is not called; signals without a credential give the
    raw signal listing. *)
Theorem validate_uvz_demand_degrades (w : World) (uvz_description : string)
    (tr : trace) :
  blank uvz_description = false ->
  let uvz_clean := sanitize_input uvz_description in
  let q1 := uvz_clean ++ " problems" in
  let q2 := uvz_clean ++ " solutions needed" in
  let q3 := "how to " ++ uvz_clean in
  let t1 := (tr ++ [HttpGet (search_url q1)])%list in
  let t2 := (t1 ++ [HttpGet (search_url q2)])%list in
  let t3 := (t2 ++ [HttpGet (search_url q3)])%list in
  let all_results :=
    (firstn 3 (search_results w q1 tr)
     ++ firstn 3 (search_results w q2 t1)
     ++ firstn 3 (search_results w q3 t2))%list in
  length all_results <= 9
  /\ (all_results = [] ->
      validate_uvz_demand w uvz_description tr
      = (Return ("Limited demand signals found for: " ++ uvz_clean), t3))
  /\ (all_results <> [] -> model w = None ->
      validate_uvz_demand w uvz_description tr
      = (Return ("Market Signals: " ++ uvz_clean ++ nl ++ nl
                 ++ signal_lines all_results), t3)).
Proof.
  intros Hb uvz_clean q1 q2 q3 t1 t2 t3 all_results.
  pose proof (validate_uvz_demand_run w uvz_description tr Hb) as H.
  cbv zeta in H. fold uvz_clean in H. fold q1 q2 q3 in H. fold t1 in H.
  fold t2 in H. fold t3 in H. fold all_results in H.
  split; [|rewrite H; unfold validate_uvz_demand_report; split].
  - unfold all_results. rewrite !length_app.
    pose proof (firstn_le_length 3 (search_results w q1 tr)).
    pose proof (firstn_le_length 3 (search_results w q2 t1)).
    pose proof (firstn_le_length 3 (search_results w q3 t2)).
    lia.
  - intros ->. reflexivity.
  - intros Hne Hm. destruct all_results as [|r l]; [now elim Hne|].
    unfold configured. rewrite Hm. reflexivity.
Qed.

Lemma validate_uvz_demand_degrades_witness :
  validate_uvz_demand offline_world "yoga" []
  = (Return "Limited demand signals found for: yoga",
     [HttpGet (search_url "yoga problems");
      HttpGet (search_url "yoga solutions needed");
      HttpGet (search_url "how to yoga")]).
Proof.
  exact (proj1 (proj2 (validate_uvz_demand_degrades offline_world "yoga" []
                         eq_refl)) eq_refl).
Defined.

(* ===================================================================== *)
(** ** Numeric fields of every operation *)
(* ===================================================================== *)

Lemma int_or_default_blank (field : string) (default : Z) :
  blank field = true -> int_or_default field default = Return default.
Proof.
  intro H. unfold int_or_default. now rewrite truthy_strip, H.
Qed.

Ltac split_fields H :=
  simpl in H;
  repeat match type of H with
         | (_ && _)%bool = true =>
             let H1 := fresh "Hb" in
             apply andb_prop in H; destruct H as [H1 H]
         end;
  repeat match goal with
         | Hn : negb (blank _) = true |- _ => apply negb_true_iff in Hn
         end.

(** X11: in the four operations with a numeric field, a field that does
    not parse as an integer gives the text [Error: ] followed by the
    message of the parse error, and neither the search endpoint nor the
    backend is called.  (The required fields are non-blank and, for the two
    operations that need it, the backend is configured: those guards come
    first.) *)
Theorem invalid_count_rejected (w : World) (c : tool_call) (tr : trace)
    (field : string) (default : Z) (e : exn) :
  count_field c = Some (field, default) ->
  forallb (fun s => negb (blank s)) (required_fields c) = true ->
  (ai_dependent c = true -> configured w = true) ->
  int_or_default field default = Raise e ->
  invoke w c tr = (Return ("Error: " ++ str_exn e), tr).
Proof.
  intros Hf Hreq Hai Hi.
  destruct c; try discriminate Hf; injection Hf as <- <-; split_fields Hreq.
  - unfold_ops. rewrite (nonblank_guard _ Hb), (Hai eq_refl). simpl.
    unfold_monad. now rewrite Hi.
  - unfold invoke. rewrite (research_uvz_topic_run w _ _ tr Hb). cbv zeta.
    now rewrite Hi.
  - unfold_ops. rewrite (nonblank_guard _ Hb), (Hai eq_refl). simpl.
    unfold_monad. now rewrite Hi.
  - unfold invoke. rewrite (competitive_analysis_run w _ _ tr Hb). cbv zeta.
    now rewrite Hi.
Qed.

Lemma invalid_count_rejected_witness :
  invoke online_world
    (GenerateEbookOutline (Some "Desk yoga") None (Some "fifty")) []
  = (Return "Error: invalid literal for int() with base 10: 'fifty'", []).
Proof.
  apply (invalid_count_rejected online_world
           (GenerateEbookOutline (Some "Desk yoga") None (Some "fifty")) []
           "fifty" 50
           (ValueError "invalid literal for int() with base 10: 'fifty'"));
    reflexivity.
Defined.

(** X12: a numeric field that is empty or whitespace-only behaves exactly
    as the field left out: the fallback of the operation (3, 10, 50 or 5)
    is used and no parse error arises. *)
Theorem blank_count_is_default (w : World) (c : tool_call) (count : string)
    (tr : trace) :
  blank count = true ->
  invoke w (with_count c (Some count)) tr = invoke w (with_count c None) tr.
Proof.
  intro Hb.
  destruct c; try reflexivity; cbv [with_count invoke kwarg];
    unfold identify_industry_niches, research_uvz_topic,
      generate_ebook_outline, competitive_analysis, int_or;
    rewrite (int_or_default_blank count _ Hb).
  - change (int_or_default "3" 3) with (Return 3%Z). reflexivity.
  - change (int_or_default "10" 10) with (Return 10%Z). reflexivity.
  - change (int_or_default "50" 50) with (Return 50%Z). reflexivity.
  - change (int_or_default "5" 5) with (Return 5%Z). reflexivity.
Qed.

Lemma blank_count_is_default_witness :
  invoke online_world (CompetitiveAnalysis (Some "yoga") (Some "  ")) []
  = invoke online_world (CompetitiveAnalysis (Some "yoga") None) [].
Proof.
  apply (blank_count_is_default online_world
           (CompetitiveAnalysis (Some "yoga") None) "  " []).
  reflexivity.
Defined.

(* ===================================================================== *)
(** ** Validation comes before sanitizing *)
(* ===================================================================== *)

Lemma isspace_in_pattern_set (c : ascii) :
  isspace c = true -> in_pattern_set c = true.
Proof.
  intro H. unfold in_pattern_set. rewrite H.
  now rewrite orb_true_r.
Qed.

Lemma sanitize_input_all_removed (s : string) :
  forallb_str (fun c => negb (in_pattern_set c)) s = true ->
  sanitize_input s = "".
Proof.
  induction s as [|c r IH]; [reflexivity|].
  simpl. intro H. apply andb_prop in H. destruct H as [Hc Hr].
  apply negb_true_iff in Hc. rewrite sanitize_input_step, Hc. now apply IH.
Qed.

(** X13: the blank test looks at the raw field, the prompt gets the
    sanitized one: a non-empty niche made only of characters the sanitizer
    removes (say [!!!]) passes validation, and [drill_uvz] then asks the
    backend about an empty niche and reports under an empty heading. *)
Theorem punctuation_only_niche_passes
    (m : trace -> string -> outcome string)
    (get : trace -> string -> outcome response)
    (parse : string -> outcome (list result_div))
    (niche : string) (tr : trace) :
  niche <> "" ->
  forallb_str (fun c => negb (in_pattern_set c)) niche = true ->
  let w := mk_world (Some m) get parse in
  let prompt := drill_uvz_prompt "" "general opportunities" in
  blank niche = false
  /\ sanitize_input niche = ""
  /\ drill_uvz w niche "" tr
     = (Return ("UVZ Deep Dive: " ++ nl ++ nl ++ backend_text (m tr prompt)),
        (tr ++ [GenerateContent prompt])%list).
Proof.
  intros Hne Hall w prompt.
  assert (Hb : blank niche = false).
  { destruct niche as [|c r]; [now elim Hne|].
    simpl in Hall. apply andb_prop in Hall. destruct Hall as [Hc _].
    apply negb_true_iff in Hc. unfold blank. simpl.
    destruct (isspace c) eqn:E; [|reflexivity].
    rewrite (isspace_in_pattern_set _ E) in Hc. discriminate. }
  pose proof (sanitize_input_all_removed niche Hall) as Hs.
  split; [exact Hb|]. split; [exact Hs|].
  unfold drill_uvz. rewrite (nonblank_guard _ Hb), Hs.
  change (negb (configured w)) with false. cbv iota.
  change (truthy (strip "")) with false. cbv iota zeta.
  unfold_monad. fold prompt.
  rewrite (gemini_analyze_configured w m prompt tr eq_refl). reflexivity.
Qed.

Lemma punctuation_only_niche_passes_witness :
  drill_uvz online_world "!!!" "" []
  = (Return ("UVZ Deep Dive: " ++ nl ++ nl ++ "MOCK_ANALYSIS"),
     [GenerateContent (drill_uvz_prompt "" "general opportunities")]).
Proof.
  refine (proj2 (proj2 (punctuation_only_niche_passes mock_backend
                          (fun _ _ => Return (mk_response 200 "" "<html>"))
                          (fun _ => Return sample_divs) "!!!" [] _ eq_refl))).
  discriminate.
Defined.

(* ===================================================================== *)
(** ** The copy-type dispatch, in full *)
(* ===================================================================== *)

Lemma prefix_append (a b : string) : String.prefix a (a ++ b) = true.
Proof.
  induction a as [|c r IH]; simpl; [now destruct b|].
  destruct (ascii_dec c c) as [_|H]; [exact IH | now elim H].
Qed.

(** X16: with title and zone non-blank and a backend configured,
    [generate_marketing_copy] dispatches on the sanitized copy type, exactly
    and case-sensitively: [landing_page] sends the landing-page template,
    [email_sequence] the five-email template, [social_posts] the
    ten-posts template, each filled with the sanitized title and zone, in
    one backend call, and reports under the sanitized copy type and title;
    any other copy type gives the unknown-copy-type text and no call. *)
Theorem copy_type_dispatch
    (m : trace -> string -> outcome string)
    (get : trace -> string -> outcome response)
    (parse : string -> outcome (list result_div))
    (product_title uvz copy_type : string) (tr : trace) :
  blank product_title = false ->
  blank uvz = false ->
  let w := mk_world (Some m) get parse in
  let mode := sanitize_input copy_type in
  let title_clean := sanitize_input product_title in
  let uvz_clean := sanitize_input uvz in
  let report := fun prompt : string =>
    (Return ("Marketing Copy: " ++ mode ++ nl ++ nl ++ "Product: "
             ++ title_clean ++ nl ++ nl ++ backend_text (m tr prompt)),
     (tr ++ [GenerateContent prompt])%list) in
  (mode = "landing_page" ->
   generate_marketing_copy w product_title uvz copy_type tr
   = report (landing_page_prompt title_clean uvz_clean))
  /\ (mode = "email_sequence" ->
      generate_marketing_copy w product_title uvz copy_type tr
      = report (email_sequence_prompt title_clean uvz_clean))
  /\ (mode = "social_posts" ->
      generate_marketing_copy w product_title uvz copy_type tr
      = report (social_posts_prompt title_clean uvz_clean))
  /\ (~ In mode ["landing_page"; "email_sequence"; "social_posts"] ->
      generate_marketing_copy w product_title uvz copy_type tr
      = (Return
           "Error: Unknown copy type. Use: landing_page, email_sequence, or social_posts",
         tr))
  /\ String.prefix "Create high-converting landing page for: "
       (landing_page_prompt title_clean uvz_clean) = true
  /\ String.prefix "Create 5-email sequence for: "
       (email_sequence_prompt title_clean uvz_clean) = true
  /\ String.prefix "Create 10 social posts for: "
       (social_posts_prompt title_clean uvz_clean) = true.
Proof.
  intros Ht Hu w mode title_clean uvz_clean report.
  assert (E : generate_marketing_copy w product_title uvz copy_type tr
              = match marketing_prompt mode title_clean uvz_clean with
                | Some prompt => report prompt
                | None => (Return unknown_copy_type, tr)
                end).
  { unfold generate_marketing_copy.
    rewrite (nonblank_guard _ Ht), (nonblank_guard _ Hu).
    change (false || false) with false. cbv iota.
    change (negb (configured w)) with false. cbv iota.
    fold mode title_clean uvz_clean.
    destruct (marketing_prompt mode title_clean uvz_clean) as [p|].
    - unfold_monad.
      rewrite (gemini_analyze_configured w m p tr eq_refl). reflexivity.
    - reflexivity. }
  rewrite E. unfold marketing_prompt.
  split; [intros ->; reflexivity|].
  split; [intros ->; reflexivity|].
  split; [intros ->; reflexivity|].
  split; [|split; [|split]; apply prefix_append].
  intro Hn.
  destruct (String.eqb_spec mode "landing_page") as [H|_];
    [elim Hn; rewrite H; simpl; auto|].
  destruct (String.eqb_spec mode "email_sequence") as [H|_];
    [elim Hn; rewrite H; simpl; auto|].
  destruct (String.eqb_spec mode "social_posts") as [H|_];
    [elim Hn; rewrite H; simpl; auto|].
  reflexivity.
Qed.

Lemma copy_type_dispatch_witness :
  generate_marketing_copy online_world "T" "U" "Landing_Page" []
  = (Return
       "Error: Unknown copy type. Use: landing_page, email_sequence, or social_posts",
     [])
  /\ prompts (snd (generate_marketing_copy online_world "T" "U"
                      "email_sequence" []))
     = [email_sequence_prompt "T" "U"].
Proof.
  destruct (copy_type_dispatch mock_backend
              (fun _ _ => Return (mk_response 200 "" "<html>"))
              (fun _ => Return sample_divs) "T" "U" "Landing_Page" []
              eq_refl eq_refl) as (_ & _ & _ & H & _).
  destruct (copy_type_dispatch mock_backend
              (fun _ _ => Return (mk_response 200 "" "<html>"))
              (fun _ => Return sample_divs) "T" "U" "email_sequence" []
              eq_refl eq_refl) as (_ & H' & _).
  split.
  - apply H. intros [E|[E|[E|[]]]]; discriminate E.
  - exact (f_equal (fun r => prompts (snd r)) (H' eq_refl)).
Defined.

(* ===================================================================== *)
(** ** Process start *)
(* ===================================================================== *)

(** X17: the handle is set up from the environment once.  With
    GEMINI_API_KEY unset or set to the empty text the server runs exactly as
    with no handle: no operation calls the backend, and [drill_uvz] with a
    niche answers the not-configured text.  With any other key, even one of
    spaces only, [drill_uvz] with a niche calls, once, the backend obtained
    for that key and the model [gemini-2.0-flash-exp], and reports its
    answer. *)
Theorem startup_from_environment
    (genai : string -> string -> trace -> string -> outcome string)
    (env : environ)
    (get : trace -> string -> outcome response)
    (parse : string -> outcome (list result_div)) :
  let w := startup genai env get parse in
  (environ_lookup env "GEMINI_API_KEY" = None
   \/ environ_lookup env "GEMINI_API_KEY" = Some "" ->
   (forall (c : tool_call) (tr : trace),
      invoke w c tr = invoke (mk_world None get parse) c tr)
   /\ (forall (c : tool_call) (tr : trace),
         prompts (snd (invoke w c tr)) = prompts tr)
   /\ (forall (niche focus_area : string) (tr : trace),
         blank niche = false ->
         drill_uvz w niche focus_area tr
         = (Return "Error: Gemini API key not configured", tr)))
  /\ (forall (key niche : string) (tr : trace),
        environ_lookup env "GEMINI_API_KEY" = Some key ->
        key <> "" ->
        blank niche = false ->
        let prompt :=
          drill_uvz_prompt (sanitize_input niche) "general opportunities" in
        drill_uvz w niche "" tr
        = (Return ("UVZ Deep Dive: " ++ sanitize_input niche ++ nl ++ nl
                   ++ backend_text
                        (genai key "gemini-2.0-flash-exp" tr prompt)),
           (tr ++ [GenerateContent prompt])%list)).
Proof.
  intro w. split.
  - intro Hk.
    assert (Hw : w = mk_world None get parse).
    { unfold w, startup, startup_model, GEMINI_API_KEY, environ_get.
      destruct Hk as [-> | ->]; reflexivity. }
    assert (Hm : model w = None) by now rewrite Hw.
    split; [intros c tr; now rewrite Hw|].
    split; [intros c tr; now apply no_handle_no_backend_call|].
    intros niche focus_area tr Hb. unfold drill_uvz.
    rewrite (nonblank_guard _ Hb), (unconfigured_guard _ Hm). reflexivity.
  - intros key niche tr Hk Hne Hb prompt.
    assert (Hm : model w = Some (genai key "gemini-2.0-flash-exp")).
    { unfold w, startup, startup_model, GEMINI_API_KEY, environ_get. simpl.
      rewrite Hk. destruct key; [now elim Hne | reflexivity]. }
    unfold drill_uvz. rewrite (nonblank_guard _ Hb).
    unfold configured. rewrite Hm. cbv iota.
    change (negb true) with false. cbv iota.
    change (truthy (strip "")) with false. cbv iota zeta.
    unfold_monad. fold prompt.
    rewrite (gemini_analyze_configured w _ prompt tr Hm). reflexivity.
Qed.

Lemma startup_from_environment_witness :
  drill_uvz (startup sample_genai env_with_empty_key
               (fun _ _ => Return (mk_response 200 "" "<html>"))
               (fun _ => Return sample_divs)) "solo coaches" "" []
  = (Return "Error: Gemini API key not configured", [])
  /\ drill_uvz (startup sample_genai [("GEMINI_API_KEY", "  ")]
                  (fun _ _ => Return (mk_response 200 "" "<html>"))
                  (fun _ => Return sample_divs)) "solo coaches" "" []
     = (Return ("UVZ Deep Dive: solo coaches" ++ nl ++ nl ++ "MOCK_ANALYSIS"),
        [GenerateContent
           (drill_uvz_prompt "solo coaches" "general opportunities")]).
Proof.
  split.
  - destruct (proj1 (startup_from_environment sample_genai env_with_empty_key
                       (fun _ _ => Return (mk_response 200 "" "<html>"))
                       (fun _ => Return sample_divs)) (or_intror eq_refl))
      as (_ & _ & H).
    exact (H "solo coaches" "" [] eq_refl).
  - refine (proj2 (startup_from_environment sample_genai
                     [("GEMINI_API_KEY", "  ")]
                     (fun _ _ => Return (mk_response 200 "" "<html>"))
                     (fun _ => Return sample_divs))
              "  " "solo coaches" [] eq_refl _ eq_refl).
    discriminate.
Defined.

(* ===================================================================== *)
(** ** Plain digit counts *)
(* ===================================================================== *)

Lemma is_digit_plain (c : ascii) :
  PyInt.is_digit c = true ->
  PyInt.int_isspace c = false /\ isspace c = false
  /\ Ascii.eqb c "+" = false /\ Ascii.eqb c "-" = false
  /\ Ascii.eqb c "_" = false /\ (0 <= PyInt.digit_value c <= 9)%Z.
Proof.
  destruct c as [[] [] [] [] [] [] [] []]; vm_compute; intro H;
    try discriminate H; repeat split; discriminate.
Qed.

Lemma scan_digits_all (s : string) (value : Z) (digits : N) :
  forallb_str PyInt.is_digit s = true ->
  (0 <= value)%Z ->
  exists v : Z,
    PyInt.scan_digits false value digits s
    = Some (v, (digits + N.of_nat (String.length s))%N, "")
    /\ (0 <= v)%Z.
Proof.
  revert value digits.
  induction s as [|c r IH]; intros value digits Hall Hv.
  - exists value. simpl. now rewrite N.add_0_r.
  - simpl in Hall. apply andb_prop in Hall. destruct Hall as [Hc Hr].
    destruct (is_digit_plain c Hc) as (_ & _ & _ & _ & _ & Hd).
    destruct (IH (10 * value + PyInt.digit_value c)%Z (digits + 1)%N Hr)
      as (v & Hs & Hv'); [lia|].
    exists v. split; [|exact Hv'].
    cbn [PyInt.scan_digits]. rewrite Hc, Hs.
    replace (N.of_nat (String.length (String c r)))
      with (1 + N.of_nat (String.length r))%N
      by (cbn [String.length]; lia).
    now rewrite N.add_assoc.
Qed.

(** With a digit in front there is nothing to skip and no sign. *)
Lemma int_digit_head (c : ascii) (r : string) :
  PyInt.is_digit c = true ->
  PyInt.int (String c r)
  = match PyInt.scan_digits false 0 0 (String c r) with
    | None => Raise (PyInt.invalid_literal (String c r))
    | Some (value, digits, rest) =>
        if (digits =? 0)%N then Raise (PyInt.invalid_literal (String c r))
        else if (PyInt.int_max_str_digits <? digits)%N
        then Raise (PyInt.exceeds_limit digits)
        else match PyInt.skip_spaces rest with
             | EmptyString => Return (1 * value)%Z
             | String _ _ => Raise (PyInt.invalid_literal (String c r))
             end
    end.
Proof.
  destruct c as [[] [] [] [] [] [] [] []]; intro H; vm_compute in H;
    try discriminate H; reflexivity.
Qed.

(** X18: a numeric field made of 1 to 4300 decimal digits and nothing else
    always parses, to a count that is not negative: it is never answered
    with a parse error. *)
Theorem digit_count_accepted (field : string) (default : Z) :
  field <> "" ->
  forallb_str PyInt.is_digit field = true ->
  String.length field <= 4300 ->
  exists n : Z, int_or_default field default = Return n /\ (0 <= n)%Z.
Proof.
  intros Hne Hall Hlen.
  destruct field as [|c r]; [now elim Hne|].
  pose proof Hall as Hall'. simpl in Hall'.
  apply andb_prop in Hall'. destruct Hall' as [Hc Hr].
  destruct (is_digit_plain c Hc) as (Hsp & Hws & Hplus & Hminus & Hus & _).
  destruct (scan_digits_all (String c r) 0 0 Hall) as (v & Hs & Hv); [lia|].
  exists v. split; [|exact Hv].
  unfold int_or_default.
  rewrite truthy_strip. unfold blank. cbn [forallb_str]. rewrite Hws.
  cbn [andb negb].
  rewrite (int_digit_head c r Hc), Hs.
  replace ((0 + N.of_nat (String.length (String c r))) =? 0)%N
    with false by (symmetry; apply N.eqb_neq; cbn [String.length]; lia).
  replace (PyInt.int_max_str_digits
           <? 0 + N.of_nat (String.length (String c r)))%N
    with false
    by (symmetry; apply N.ltb_ge; unfold PyInt.int_max_str_digits; lia).
  cbn [PyInt.skip_spaces]. f_equal. lia.
Qed.

Lemma digit_count_accepted_witness :
  exists n : Z, int_or_default "0012" 10 = Return n /\ (0 <= n)%Z.
Proof.
  apply (digit_count_accepted "0012" 10); [discriminate | reflexivity |].
  simpl. lia.
Defined.
